(** * idrac_exporter: a shallow embedding of [idrac_exporter.py]

    The exporter polls a Redfish management controller and renders a few
    of its fields as Prometheus text lines.  This file embeds the class
    [RedfishAPI], the module function [collect_metrics] and the request
    handler [ServiceHandler.do_GET] as state-passing functions with
    Python exceptions made explicit, and proves properties of them.

    What the repository does not define is taken as an oracle in [Env]:
    the HTTPS transport ([requests]), the wall clock, the date parser,
    and the parts of Python's [str()], [float()] and [int()] that work on
    text.  Python floats are IEEE binary64 and are embedded as Rocq's
    primitive floats.

    A Python text is held as the bytes of its UTF-8 encoding, one
    character of a Rocq string for each byte; a lone surrogate, which a
    JSON escape can put into a text and which UTF-8 has no encoding for,
    is held as the three bytes ED, A0 to BF, 80 to BF that the encoding
    scheme would give it. *)

From Stdlib Require Import ZArith List Ascii String Floats Lia.
From stdpp Require Import base option list gmap strings pretty.
Import ListNotations.

Set Warnings "-register-all".
Open Scope string_scope.
Open Scope Z_scope.

(** ** Characters that cannot be written inside a string literal *)

Definition dquote : string := String "034"%char EmptyString.
Definition newline : string := String "010"%char EmptyString.

(** ** Python exceptions and results *)

Inductive exn : Type :=
| KeyError (key : string)
| TypeError
| ValueError
| OverflowError
| AttributeError
| RuntimeError (msg : string)
| RequestException      (* raised by [requests]: timeout, refused, TLS *)
| JSONDecodeError       (* raised by [Response.json()] *)
| DanglingReference.    (* a reference without its object; not Python's *)

Inductive result (A : Type) : Type :=
| Ok (a : A)
| Raise (e : exn).
Arguments Ok {A} a.
Arguments Raise {A} e.

(** A computation over a mutable state [S] that may raise.  The state is
    returned in both cases: what a method wrote before it raised stays
    written. *)
Definition M (S A : Type) : Type := S -> result A * S.

Definition ret {S A} (a : A) : M S A := fun s => (Ok a, s).
Definition raise {S A} (e : exn) : M S A := fun s => (Raise e, s).
Definition bind {S A B} (c : M S A) (k : A -> M S B) : M S B :=
  fun s => match c s with
           | (Ok a, s') => k a s'
           | (Raise e, s') => (Raise e, s')
           end.
Definition lift {S A} (r : result A) : M S A := fun s => (r, s).
Definition modify {S} (f : S -> S) : M S unit := fun s => (Ok tt, f s).
Definition gets {S A} (f : S -> A) : M S A := fun s => (Ok (f s), s).

Notation "x <~ c ; k" := (bind c (fun x => k))
  (at level 20, c at level 100, k at level 200, only parsing).
Notation "'exec' c ; k" := (bind c (fun _ => k))
  (at level 20, c at level 100, k at level 200, only parsing).

(** [for x in l: body] *)
Fixpoint for_each {S A} (l : list A) (body : A -> M S unit) : M S unit :=
  match l with
  | [] => ret tt
  | x :: rest => exec body x ; for_each rest body
  end.

(** ** JSON documents as Python values *)

Inductive json : Type :=
| JNull
| JBool (b : bool)
| JInt (n : Z)
| JFloat (x : float)
| JStr (s : string)
| JArr (items : list json)
| JObj (fields : list (string * json)).

(** A Python [dict] keeps insertion order and has one binding per key; it
    is an association list read at the first binding of the key. *)
Fixpoint dict_get {A} (k : string) (d : list (string * A)) : option A :=
  match d with
  | [] => None
  | (k', v) :: rest => if String.eqb k' k then Some v else dict_get k rest
  end.

(** [v[k]] with a string key *)
Definition subscript (v : json) (k : string) : result json :=
  match v with
  | JObj d => match dict_get k d with
              | Some x => Ok x
              | None => Raise (KeyError k)
              end
  | _ => Raise TypeError
  end.

(** [v.get(k)] *)
Definition method_get (v : json) (k : string) : result json :=
  match v with
  | JObj d => Ok (default JNull (dict_get k d))
  | _ => Raise AttributeError
  end.

(** [v == 'literal'] *)
Definition eq_str (v : json) (s : string) : bool :=
  match v with
  | JStr t => String.eqb t s
  | _ => false
  end.

Fixpoint chars (s : string) : list json :=
  match s with
  | EmptyString => []
  | String c rest => JStr (String c EmptyString) :: chars rest
  end.

(** the values [for entry in v] ranges over *)
Definition py_iter (v : json) : result (list json) :=
  match v with
  | JArr l => Ok l
  | JObj d => Ok (map (fun kv => JStr (fst kv)) d)
  | JStr s => Ok (chars s)
  | _ => Raise TypeError
  end.

(** ** Strings: [join] and [strip] *)

Fixpoint join (sep : string) (l : list string) : string :=
  match l with
  | [] => EmptyString
  | x :: rest => match rest with
                 | [] => x
                 | _ :: _ => x +:+ sep +:+ join sep rest
                 end
  end.

Fixpoint mem_char (c : ascii) (set : string) : bool :=
  match set with
  | EmptyString => false
  | String d rest => if Ascii.eqb c d then true else mem_char c rest
  end.

Fixpoint lstrip (set s : string) : string :=
  match s with
  | EmptyString => EmptyString
  | String c rest => if mem_char c set then lstrip set rest else s
  end.

Fixpoint rstrip (set s : string) : string :=
  match s with
  | EmptyString => EmptyString
  | String c rest =>
      match rstrip set rest with
      | EmptyString => if mem_char c set then EmptyString
                       else String c EmptyString
      | r => String c r
      end
  end.

(** [s.strip(set)]: both ends *)
Definition strip (set s : string) : string := rstrip set (lstrip set s).

(** [v.strip(set)] *)
Definition method_strip (v : json) (set : string) : result string :=
  match v with
  | JStr s => Ok (strip set s)
  | _ => Raise AttributeError
  end.

(** ** Floats *)

Definition float_of_Z (z : Z) : float :=
  SF2Prim (binary_normalize prec emax z 0 false).

(** [int(x)] on a float: truncation toward zero *)
Definition int_of_float (x : float) : result Z :=
  match Prim2SF x with
  | S754_zero _ => Ok 0
  | S754_finite s m e =>
      let a := if 0 <=? e then Z.shiftl (Z.pos m) e
               else Z.shiftr (Z.pos m) (- e) in
      Ok (if s then - a else a)
  | S754_infinity _ => Raise OverflowError
  | S754_nan => Raise ValueError
  end.

Definition is_infinite (x : float) : bool :=
  match Prim2SF x with
  | S754_infinity _ => true
  | _ => false
  end.

(** ** The environment: what Python and its libraries supply *)

Record request : Type := {
  req_url : string;
  req_authorization : string;
  req_accept : string;
  req_verify : bool;
  req_timeout : Z }.

Inductive http_outcome : Type :=
| TransportFailure                              (* [session.get] raised *)
| Response (status : Z) (body : option json).   (* [None]: body is not JSON *)

Record Env : Type := {
  (** the answer to the n-th request of the process *)
  http : nat -> request -> http_outcome;
  (** the n-th reading of [time.time()] *)
  wall_clock : nat -> float;
  (** [dateutil.parser.isoparse(v).timetuple()] *)
  isoparse_timetuple : json -> result (list Z);
  (** [time.mktime(t)] *)
  mktime : list Z -> result float;
  (** [repr(v)], used for floats, lists and dicts *)
  py_repr : json -> string;
  (** [float(s)] and [int(s)] on text *)
  float_of_str : string -> result float;
  int_of_str : string -> result Z }.

(** ** The world and the [RedfishAPI] object *)

Record World : Type := {
  net_log : list request;   (* requests issued so far, oldest first *)
  clock_reads : nat }.

Record RedfishAPI : Type := {
  server : string;
  baseurl : string;
  sslcert : bool;
  token : option string;    (* [None] is Python's [None] *)
  metrics : list string }.

Record St : Type := { self : RedfishAPI; world : World }.

Definition set_token (t : option string) (st : St) : St :=
  {| self := {| server := server (self st); baseurl := baseurl (self st);
                sslcert := sslcert (self st); token := t;
                metrics := metrics (self st) |};
     world := world st |}.

Definition set_metrics (m : list string) (st : St) : St :=
  {| self := {| server := server (self st); baseurl := baseurl (self st);
                sslcert := sslcert (self st); token := token (self st);
                metrics := m |};
     world := world st |}.

Definition log_request (r : request) (st : St) : St :=
  {| self := self st;
     world := {| net_log := net_log (world st) ++ [r];
                 clock_reads := clock_reads (world st) |} |}.

Definition tick_clock (st : St) : St :=
  {| self := self st;
     world := {| net_log := net_log (world st);
                 clock_reads := S (clock_reads (world st)) |} |}.

(** [RedfishAPI.__init__]; the attribute [metrics] is created by
    [metrics_clear], which every pass calls first, and [token] by
    [authenticate], which follows the constructor at its only call. *)
Definition RedfishAPI_init (srv : string) : RedfishAPI :=
  {| server := srv;
     baseurl := "https://" +:+ srv +:+ "/redfish/v1";
     sslcert := false;
     token := None;
     metrics := [] |}.

Section Exporter.

Variable E : Env.

(** ** Python's conversions *)

(** [str(v)], as the [%s] conversion applies it *)
Definition py_str (v : json) : string :=
  match v with
  | JStr s => s
  | JInt n => pretty n
  | JNull => "None"
  | JBool true => "True"
  | JBool false => "False"
  | _ => py_repr E v
  end.

(** [float(v)] *)
Definition py_float (v : json) : result float :=
  match v with
  | JFloat x => Ok x
  | JInt n => let x := float_of_Z n in
              if is_infinite x then Raise OverflowError else Ok x
  | JBool b => Ok (if b then 1%float else 0%float)
  | JStr s => float_of_str E s
  | _ => Raise TypeError
  end.

(** [int(v)] *)
Definition py_int (v : json) : result Z :=
  match v with
  | JInt n => Ok n
  | JBool b => Ok (if b then 1 else 0)
  | JFloat x => int_of_float x
  | JStr s => int_of_str E s
  | _ => Raise TypeError
  end.

(** truth value of an [error] field: [None] and [0] are false *)
Definition truthy_code (c : option Z) : bool :=
  match c with
  | None => false
  | Some n => negb (n =? 0)
  end.

(** ** class RedfishAPI *)

(** the dict [get] returns: [{'json': ..., 'error': ...}] *)
Record retval : Type := { rv_json : json; rv_error : option Z }.

(** the request [get] hands to [session.get] *)
Definition get_request (api : RedfishAPI) (url : string) : request :=
  let url := baseurl api +:+ "/" +:+ url in
  {| req_url := url;
     req_authorization :=
       "Basic " +:+ match token api with
                    | Some t => t
                    | None => "None"
                    end;
     req_accept := "application/json";
     req_verify := sslcert api;
     req_timeout := 1 |}.

Definition RedfishAPI_get (url : string) : M St retval := fun st =>
  let req := get_request (self st) url in
  let st' := log_request req st in
  match http E (length (net_log (world st))) req with
  | TransportFailure => (Raise RequestException, st')
  | Response code body =>
      let code := if code =? 200 then None else Some code in
      match body with
      | None => (Raise JSONDecodeError, st')
      | Some doc => (Ok {| rv_json := doc; rv_error := code |}, st')
      end
  end.

Definition authenticate (tok : string) : M St bool := fun st =>
  let st := set_token (Some tok) st in
  match RedfishAPI_get "Chassis" st with
  | (Raise _, st) => (Ok false, st)
  | (Ok res, st) =>
      if negb (truthy_code (rv_error res)) then (Ok true, st)
      else (Ok false, set_token None st)
  end.

Definition metrics_clear : M St unit := modify (set_metrics []).

Definition metrics_get : M St string :=
  gets (fun st => join newline (metrics (self st)) +:+ newline).

Definition metrics_add (name : string) (args : list (string * json))
    (value : json) : M St unit :=
  let args :=
    match args with
    | _ :: _ =>
        let args :=
          join "," (map (fun kv => fst kv +:+ "=" +:+ dquote +:+
                                   py_str (snd kv) +:+ dquote) args) in
        "{" +:+ args +:+ "}"
    | [] => EmptyString
    end in
  let value :=
    match value with
    | JNull => "NaN"
    | v => py_str v
    end in
  modify (fun st =>
    set_metrics (metrics (self st) ++
                 ["idrac_" +:+ name +:+ args +:+ " " +:+ value]) st).

Definition time_time : M St float := fun st =>
  (Ok (wall_clock E (clock_reads (world st))), tick_clock st).

(** the body of the loop of [collect_sel], in two parts: the record
    ([args] and [value]) and the call of [metrics_add] *)
Definition sel_entry_record (entry : json)
    : M St (list (string * json) * json) :=
  id <~ lift (subscript entry "Id") ;
  message <~ lift (subscript entry "Message") ;
  message <~ lift (method_strip message ".") ;
  component <~ lift (subscript entry "SensorType") ;
  severity <~ lift (subscript entry "Severity") ;
  let args := [("id", id); ("message", JStr message);
               ("component", component); ("severity", severity)] in
  created <~ lift (subscript entry "Created") ;
  value <~ lift (isoparse_timetuple E created) ;
  now <~ time_time ;
  value <~ lift (mktime E value) ;
  value <~ lift (int_of_float (now - value)) ;
  ret (args, JInt value).

Definition collect_sel_entry (entry : json) : M St unit :=
  record <~ sel_entry_record entry ;
  metrics_add "sel_entry" (fst record) (snd record).

Definition collect_sel : M St unit :=
  data <~ RedfishAPI_get "Managers/iDRAC.Embedded.1/Logs/Sel" ;
  let error := rv_error data in
  let data := rv_json data in
  if truthy_code error then ret tt
  else
    data <~ lift (method_get data "Members") ;
    data <~ lift (py_iter data) ;
    for_each data collect_sel_entry.

Definition collect_basics : M St unit :=
  data <~ RedfishAPI_get "Systems/System.Embedded.1" ;
  let error := rv_error data in
  let data := rv_json data in
  if truthy_code error then ret tt
  else
    power <~ lift (subscript data "PowerState") ;
    let value := if eq_str power "On" then 1 else 0 in
    exec metrics_add "power_on" [] (JInt value) ;
    status <~ lift (subscript data "Status") ;
    text <~ lift (subscript status "Health") ;
    let value := if eq_str text "OK" then 1 else 0 in
    exec metrics_add "health_ok" [("status", text)] (JInt value) ;
    led <~ lift (subscript data "IndicatorLED") ;
    let value := if eq_str led "Off" then 0 else 1 in
    exec metrics_add "indicator_led_on" [] (JInt value) ;
    summary <~ lift (subscript data "MemorySummary") ;
    text <~ lift (subscript summary "TotalSystemMemoryGiB") ;
    gib <~ lift (py_float text) ;
    value <~ lift (int_of_float
                     (gib * float_of_Z (1024 ^ 4) / float_of_Z (10 ^ 9))) ;
    exec metrics_add "memory_size" [] (JInt value) ;
    summary <~ lift (subscript data "ProcessorSummary") ;
    text <~ lift (subscript summary "Model") ;
    summary <~ lift (subscript data "ProcessorSummary") ;
    value <~ lift (subscript summary "Count") ;
    exec metrics_add "cpu_count" [("model", text)] value ;
    text <~ lift (subscript data "BiosVersion") ;
    metrics_add "bios_version" [("version", text)] JNull.

(** the body of the loop of [collect_sensors] *)
Definition collect_sensors_entry (entry : json) : M St unit :=
  name <~ lift (subscript entry "ElementName") ;
  id <~ lift (subscript entry "DeviceID") ;
  let args := [("name", name); ("id", id)] in
  state <~ lift (subscript entry "EnabledState") ;
  let args := (args ++ [("enabled",
                         JInt (if eq_str state "Enabled" then 1 else 0))])%list in
  type <~ lift (subscript entry "SensorType") ;
  if eq_str type "Temperature" then
    reading <~ lift (subscript entry "CurrentReading") ;
    reading <~ lift (py_float reading) ;
    metrics_add "sensors_temperature" args
                (JFloat (reading / float_of_Z 10))
  else
    type <~ lift (subscript entry "SensorType") ;
    if eq_str type "Tachometer" then
      reading <~ lift (subscript entry "CurrentReading") ;
      reading <~ lift (py_int reading) ;
      metrics_add "sensors_tachometer" args (JInt reading)
    else ret tt.

Definition collect_sensors : M St unit :=
  data <~ RedfishAPI_get
            "Dell/Systems/System.Embedded.1/DellNumericSensorCollection" ;
  let error := rv_error data in
  let data := rv_json data in
  if truthy_code error then ret tt
  else
    data <~ lift (method_get data "Members") ;
    data <~ lift (py_iter data) ;
    for_each data collect_sensors_entry.

Definition RedfishAPI_collect_metrics : M St string :=
  exec metrics_clear ;
  exec collect_basics ;
  exec collect_sensors ;
  exec collect_sel ;
  metrics_get.

(** ** The host registry and the module function [collect_metrics] *)

(** One value of the dict [hosts]: the credentials read at startup, and
    the keys ['host'] and ['valid'] added by the first request.  The
    [RedfishAPI] object lives in a heap and ['host'] holds a reference to
    it, because [dict.copy()] is shallow: a copy of an entry that has the
    key shares the object.

    The registry holds the dict of every key by value: distinct keys of
    [hosts] hold distinct dicts.  A copy made by [dict.copy()] is a new
    dict, and [yaml.full_load] gives every key of [hosts] a dict of its
    own unless the configuration binds two keys to one mapping with an
    anchor and an alias; such a configuration is outside this registry,
    where the write of ['host'] and ['valid'] through one key would show
    under the other key too.  What is proved below of the entry of the
    requested target, and of entries that hold a session (they are never
    written again), does not depend on it. *)
Record info : Type := {
  username : string;
  password : string;
  info_token : string;
  host : option nat;
  valid : option bool }.

Record Process : Type := {
  hosts : gmap string info;
  heap : list RedfishAPI;
  outside : World }.

Definition set_entry (k : string) (i : info) (p : Process) : Process :=
  {| hosts := <[k := i]> (hosts p); heap := heap p; outside := outside p |}.

(** [RedfishAPI(...)]: a new object, returned by reference *)
Definition alloc (obj : RedfishAPI) : M Process nat := fun p =>
  (Ok (length (heap p)),
   {| hosts := hosts p; heap := heap p ++ [obj]; outside := outside p |}).

(** a method call on the object behind a reference *)
Definition on_object {A} (r : nat) (m : M St A) : M Process A := fun p =>
  match heap p !! r with
  | None => (Raise DanglingReference, p)
  | Some obj =>
      let (res, st) := m {| self := obj; world := outside p |} in
      (res, {| hosts := hosts p;
               heap := <[r := self st]> (heap p);
               outside := world st |})
  end.

(** [if not hosts.get(host): hosts[host] = hosts['default'].copy()] *)
Definition seed_entry (target : string) : M Process unit :=
  known <~ gets (fun p => hosts p !! target) ;
  match known with
  | Some _ => ret tt
  | None =>
      dflt <~ gets (fun p => hosts p !! "default") ;
      match dflt with
      | Some d => modify (set_entry target d)
      | None => raise (KeyError "default")
      end
  end.

(** [if 'host' not in info: ...]: the session is made and probed once.
    The two keys are written into the dict of the target, which the
    registry holds under the key of the target (see [info] for a dict
    that a configuration binds to two keys). *)
Definition open_session (target : string) (i : info) : M Process unit :=
  match host i with
  | Some _ => ret tt
  | None =>
      r <~ alloc (RedfishAPI_init target) ;
      ok <~ on_object r (authenticate (info_token i)) ;
      modify (set_entry target
                {| username := username i; password := password i;
                   info_token := info_token i;
                   host := Some r; valid := Some ok |})
  end.

(** [if info.get('valid'): ... else: raise RuntimeError('Invalid host')] *)
Definition run_session (i : info) : M Process string :=
  match valid i with
  | Some true =>
      match host i with
      | Some r => on_object r RedfishAPI_collect_metrics
      | None => raise (KeyError "host")
      end
  | _ => raise (RuntimeError "Invalid host")
  end.

(** [info] is the dict inside [hosts]: what [open_session] writes to it is
    read back from the registry. *)
Definition collect_metrics (target : string) : M Process string :=
  exec seed_entry target ;
  entry <~ gets (fun p => hosts p !! target) ;
  match entry with
  | None => raise TypeError
  | Some i =>
      exec open_session target i ;
      entry <~ gets (fun p => hosts p !! target) ;
      match entry with
      | None => raise TypeError
      | Some i => run_session i
      end
  end.

(** A run of the process: the requests of [targets] one after the other.
    Each is recorded with its outcome and the network requests it issued. *)
Record event : Type := {
  ev_target : string;
  ev_outcome : result string;
  ev_requests : list request }.

Fixpoint serve (targets : list string) (p : Process) : list event * Process :=
  match targets with
  | [] => ([], p)
  | t :: rest =>
      let (res, p') := collect_metrics t p in
      let ev := {| ev_target := t; ev_outcome := res;
                   ev_requests := drop (length (net_log (outside p)))
                                       (net_log (outside p')) |} in
      let (evs, p'') := serve rest p' in
      (ev :: evs, p'')
  end.

(** ** class ServiceHandler *)

Definition is_lower (c : ascii) : bool :=
  let n := N_of_ascii c in ((97 <=? n) && (n <=? 122))%N.

(** the longest run of [[a-z]] at the head, and what follows it *)
Fixpoint span_lower (s : string) : string * string :=
  match s with
  | EmptyString => (EmptyString, EmptyString)
  | String c rest =>
      if is_lower c then
        let (b, tail) := span_lower rest in (String c b, tail)
      else (EmptyString, s)
  end.

(** what the last group (any characters, greedy) takes: a dot does not
    match a line feed, so up to the first one *)
Fixpoint until_newline (s : string) : string :=
  match s with
  | EmptyString => EmptyString
  | String c rest =>
      if Ascii.eqb c "010"%char then EmptyString
      else String c (until_newline rest)
  end.

Fixpoint strip_prefix (pre s : string) : option string :=
  match pre, s with
  | EmptyString, _ => Some s
  | String a pre', String b s' =>
      if Ascii.eqb a b then strip_prefix pre' s' else None
  | String _ _, EmptyString => None
  end.

(** [re.match(pattern, self.path)] for the pattern of [do_GET]: a slash,
    group 1 of one or more lower-case letters, then optionally the text
    [?target=] followed by group 3 of any characters.  Returns groups 1
    and 3, or [None] when the path does not match.  The greedy group 1
    never gives a letter back, since the optional part starts with [?]. *)
Definition re_match (path : string) : option (string * option string) :=
  match path with
  | String "/"%char rest =>
      match span_lower rest with
      | (EmptyString, _) => None
      | (b, tail) =>
          Some (b, option_map until_newline (strip_prefix "?target=" tail))
      end
  | _ => None
  end.

(** a text with a lone surrogate: the byte ED followed by one of A0 to BF *)
Fixpoint has_surrogate (s : string) : bool :=
  match s with
  | EmptyString => false
  | String a rest =>
      match rest with
      | EmptyString => false
      | String b _ =>
          let n := N_of_ascii b in
          (Ascii.eqb a "237"%char && (160 <=? n) && (n <=? 191))%N
          || has_surrogate rest
      end
  end.

(** [s.encode()]: the bytes of the text; a lone surrogate cannot be
    encoded ([UnicodeEncodeError], a [ValueError]) *)
Definition str_encode (s : string) : result string :=
  if has_surrogate s then Raise ValueError else Ok s.

(** What [do_GET] does to its connection, as the calls it makes on the
    base class: [send_response(status)], [send_header(k, v)] for each of
    [headers], [end_headers()] and [wfile.write(...)] with the bytes of
    [body].  [send_response] adds the headers [Server] and [Date] of its
    own, which are the library's and not listed.  When [body] is
    [Raise e], the status line and the headers went out, the argument of
    [write] raised [e], no body followed and [do_GET] raised [e]. *)
Record response : Type := {
  status : Z;
  headers : list (string * string);
  body : result string }.

(** the last four lines of [do_GET] *)
Definition respond (status : Z) (metrics : string) : response :=
  {| status := status;
     headers := [("Content-type", "text/plain")];
     body := str_encode metrics |}.

(** [do_GET] either raises before it has sent anything, or makes the
    calls of a [response]; it then returns, or, when the [body] of that
    response is [Raise e], raises [e] after the status line and the
    headers. *)
Definition do_GET (path : string) : M Process response :=
  let metrics := EmptyString in
  match re_match path with
  | None => raise AttributeError
  | Some (b, p) =>
      let status :=
        if String.eqb b "metrics" then
          match p with
          | None | Some EmptyString => 400
          | Some _ => 200
          end
        else 404 in
      if status =? 200 then
        fun s =>
          match collect_metrics (default EmptyString p) s with
          | (Ok metrics, s) => (Ok (respond status metrics), s)
          | (Raise _, s) => (Ok (respond 500 metrics), s)
          end
      else ret (respond status metrics)
  end.

End Exporter.

(** ** Reference renderings

    The text of a sink and of a label set, written out the way the format
    reads: every record followed by a line feed; the pairs between braces,
    each but the first preceded by a comma. *)

Fixpoint unlines (l : list string) : string :=
  match l with
  | [] => EmptyString
  | x :: rest => x +:+ newline +:+ unlines rest
  end.

Definition label_pair (E : Env) (kv : string * json) : string :=
  fst kv +:+ "=" +:+ dquote +:+ py_str E (snd kv) +:+ dquote.

Fixpoint more_labels (E : Env) (l : list (string * json)) : string :=
  match l with
  | [] => "}"
  | kv :: rest => "," +:+ label_pair E kv +:+ more_labels E rest
  end.

Definition label_set (E : Env) (l : list (string * json)) : string :=
  match l with
  | [] => EmptyString
  | kv :: rest => "{" +:+ label_pair E kv +:+ more_labels E rest
  end.

Definition value_text (E : Env) (v : json) : string :=
  match v with
  | JNull => "NaN"
  | _ => py_str E v
  end.

(** ** The three collectors, by name *)

Inductive collector : Type := Basics | Sensors | EventLog.

Definition resource (c : collector) : string :=
  match c with
  | Basics => "Systems/System.Embedded.1"
  | Sensors => "Dell/Systems/System.Embedded.1/DellNumericSensorCollection"
  | EventLog => "Managers/iDRAC.Embedded.1/Logs/Sel"
  end.

Definition run_collector (E : Env) (c : collector) : M St unit :=
  match c with
  | Basics => collect_basics E
  | Sensors => collect_sensors E
  | EventLog => collect_sel E
  end.

(** the answer of the transport to the request [get url] would issue now *)
Definition answer (E : Env) (url : string) (st : St) : http_outcome :=
  http E (length (net_log (world st))) (get_request (self st) url).

(** the state after that request has been issued *)
Definition requested (url : string) (st : St) : St :=
  log_request (get_request (self st) url) st.

(** a JSON answer whose status [get] reports as an error the callers see:
    not 200, and not the 0 that Python takes for false *)
Definition error_status (o : http_outcome) : bool :=
  match o with
  | Response code (Some _) => negb (code =? 200) && negb (code =? 0)
  | _ => false
  end.

(** the text [metrics_get] returns in a state *)
Definition rendered (st : St) : string :=
  join newline (metrics (self st)) +:+ newline.

(** a path the pattern of [do_GET] matches: a slash and a lower-case
    letter, whatever follows *)
Definition matched_path (path : string) : bool :=
  match path with
  | String "/"%char (String c _) => is_lower c
  | _ => false
  end.

(** a target whose entry holds a session and the mark ['valid'] = False *)
Definition marked_invalid (p : Process) (t : string) : Prop :=
  exists i r, hosts p !! t = Some i /\ host i = Some r /\ valid i = Some false.

(** an event of a run in which [t] was rejected without a network request *)
Definition rejected_quietly (t : string) (ev : event) : Prop :=
  ev_target ev = t ->
  ev_outcome ev = Raise (RuntimeError "Invalid host") /\ ev_requests ev = [].

(** a computation that leaves the registry entry of [t] as it is *)
Definition keeps {A} (t : string) (m : M Process A) : Prop :=
  forall p, hosts (snd (m p)) !! t = hosts p !! t.

(** every session reference of the registry points into the heap *)
Definition refs_in_range (p : Process) : Prop :=
  forall k i r, hosts p !! k = Some i -> host i = Some r ->
                (r < length (heap p))%nat.

(** the entry a first request for [t] works on: its own, or a copy of
    the default one *)
Definition seeded (p : Process) (t : string) : option info :=
  match hosts p !! t with
  | Some i => Some i
  | None => hosts p !! "default"
  end.

(** the probe of a new session for [t] is not answered with status 200
    and a JSON body: transport failure, other body, other status *)
Definition probe_rejected (E : Env) (t : string) (i : info) (w : World)
    : bool :=
  match answer E "Chassis"
          (set_token (Some (info_token i))
             {| self := RedfishAPI_init t; world := w |}) with
  | Response code (Some _) => negb (code =? 200) && negb (code =? 0)
  | _ => true
  end.

(** every character of [s] is in [set]; [s] starts, ends with one *)
Fixpoint all_in (set s : string) : bool :=
  match s with
  | EmptyString => true
  | String c rest => mem_char c set && all_in set rest
  end.

Definition head_in (set s : string) : bool :=
  match s with
  | EmptyString => false
  | String c _ => mem_char c set
  end.

Fixpoint last_in (set s : string) : bool :=
  match s with
  | EmptyString => false
  | String c rest => match rest with
                     | EmptyString => mem_char c set
                     | String _ _ => last_in set rest
                     end
  end.

(** ** Readings of the specification that the code is compared with *)

(** a fetch that did not end in status 200 with a JSON body *)
Definition failed_outcome (o : http_outcome) : bool :=
  match o with
  | TransportFailure => true
  | Response _ None => true
  | Response code (Some _) => negb (code =? 200)
  end.

(** "every failed [get] returns an empty document and an error indicator,
    and never raises" *)
Definition get_absorbs_failure (E : Env) (url : string) (st : St) : Prop :=
  failed_outcome (answer E url st) = true ->
  exists code st',
    RedfishAPI_get E url st
    = (Ok {| rv_json := JObj []; rv_error := Some code |}, st').

(** "the message label is the message without its trailing periods, and
    only those" *)
Definition message_label_rstripped (E : Env) (entry : json) (st : St) : Prop :=
  forall m args v st',
    subscript entry "Message" = Ok (JStr m) ->
    sel_entry_record E entry st = (Ok (args, v), st') ->
    dict_get "message" args = Some (JStr (rstrip "." m)).

(** "whatever the controller answers, the pass as a whole succeeds" *)
Definition pass_succeeds (E : Env) (st : St) : Prop :=
  exists text st', RedfishAPI_collect_metrics E st = (Ok text, st').

(** ** Sample controllers

    Concrete environments and documents, used to run the model. *)

Definition sample_system : json :=
  JObj [("PowerState", JStr "On");
        ("Status", JObj [("Health", JStr "OK")]);
        ("IndicatorLED", JStr "Off");
        ("MemorySummary", JObj [("TotalSystemMemoryGiB", JFloat 64)]);
        ("ProcessorSummary", JObj [("Model", JStr "Xeon"); ("Count", JInt 2)]);
        ("BiosVersion", JStr "2.4.8")].

Definition sample_temperature : json :=
  JObj [("ElementName", JStr "Inlet Temp"); ("DeviceID", JStr "T1");
        ("EnabledState", JStr "Enabled"); ("SensorType", JStr "Temperature");
        ("CurrentReading", JInt 423)].

Definition sample_fan : json :=
  JObj [("ElementName", JStr "Fan1"); ("DeviceID", JStr "F1");
        ("EnabledState", JStr "Disabled"); ("SensorType", JStr "Tachometer");
        ("CurrentReading", JInt 7200)].

Definition sample_voltage : json :=
  JObj [("ElementName", JStr "PS1 Voltage"); ("DeviceID", JStr "V1");
        ("EnabledState", JStr "Enabled"); ("SensorType", JStr "Voltage");
        ("CurrentReading", JInt 230)].

Definition sample_sensors : json :=
  JObj [("Members", JArr [sample_temperature; sample_fan; sample_voltage])].

Definition sample_log_entry (message : string) : json :=
  JObj [("Id", JStr "7"); ("Message", JStr message);
        ("SensorType", JStr "Battery"); ("Severity", JStr "Warning");
        ("Created", JStr "2023-11-14T22:13:20")].

Definition sample_sel : json :=
  JObj [("Members", JArr [sample_log_entry "The battery is low."])].

Definition sample_timetuple : list Z := [2023; 11; 14; 22; 13; 20; 1; 318; -1].

(** An environment whose transport answers by URL from a table and fails
    for every other URL; the clock stands 3600 s after the sample entry. *)
Definition table_env (table : list (string * http_outcome)) : Env :=
  {| http := fun _ r => default TransportFailure (dict_get (req_url r) table);
     wall_clock := fun _ => float_of_Z 1700003600;
     isoparse_timetuple := fun v =>
       if eq_str v "2023-11-14T22:13:20" then Ok sample_timetuple
       else Raise ValueError;
     mktime := fun _ => Ok (float_of_Z 1700000000);
     py_repr := fun v =>
       match v with
       | JFloat x => if PrimFloat.eqb x (float_of_Z 423 / float_of_Z 10)
                     then "42.3" else "?"
       | _ => "?"
       end;
     float_of_str := fun _ => Raise ValueError;
     int_of_str := fun _ => Raise ValueError |}.

Definition url_chassis : string := "https://idrac1/redfish/v1/Chassis".
Definition url_system : string :=
  "https://idrac1/redfish/v1/Systems/System.Embedded.1".
Definition url_sensors : string :=
  "https://idrac1/redfish/v1/Dell/Systems/System.Embedded.1/DellNumericSensorCollection".
Definition url_sel : string :=
  "https://idrac1/redfish/v1/Managers/iDRAC.Embedded.1/Logs/Sel".

(** a healthy controller *)
Definition healthy_env : Env :=
  table_env [(url_chassis, Response 200 (Some (JObj [])));
             (url_system, Response 200 (Some sample_system));
             (url_sensors, Response 200 (Some sample_sensors));
             (url_sel, Response 200 (Some sample_sel))].

(** a controller that rejects the credentials *)
Definition unauthorized_env : Env :=
  table_env [(url_chassis, Response 401 (Some (JObj [("error", JStr "denied")])))].

(** a controller whose system resource lacks every expected field *)
Definition bare_system_env : Env :=
  table_env [(url_chassis, Response 200 (Some (JObj [])));
             (url_system, Response 200 (Some (JObj [])));
             (url_sensors, Response 200 (Some sample_sensors));
             (url_sel, Response 200 (Some sample_sel))].

(** a controller that accepts the credentials and has no other resource *)
Definition empty_env : Env :=
  table_env [(url_chassis, Response 200 (Some (JObj [])));
             (url_system, Response 404 (Some (JObj [])));
             (url_sensors, Response 404 (Some (JObj [])));
             (url_sel, Response 404 (Some (JObj [])))].

(** a controller that reports more memory than a double can scale *)
Definition huge_memory_env : Env :=
  table_env
    [(url_system,
      Response 200
        (Some (JObj [("PowerState", JStr "On");
                     ("Status", JObj [("Health", JStr "OK")]);
                     ("IndicatorLED", JStr "Off");
                     ("MemorySummary",
                      JObj [("TotalSystemMemoryGiB", JInt (10 ^ 300))])])))].

(** a controller whose system resource alone answers with an error *)
Definition no_system_env : Env :=
  table_env [(url_chassis, Response 200 (Some (JObj [])));
             (url_system, Response 503 (Some (JObj [])));
             (url_sensors, Response 200 (Some sample_sensors));
             (url_sel, Response 200 (Some sample_sel))].

(** a controller that is switched off: every request fails in transport *)
Definition offline_env : Env := table_env [].

Definition new_world : World := {| net_log := []; clock_reads := 0 |}.

Definition sample_api : RedfishAPI :=
  {| server := "idrac1"; baseurl := "https://idrac1/redfish/v1";
     sslcert := false; token := Some "cm9vdDpjYWx2aW4="; metrics := [] |}.

Definition sample_st : St := {| self := sample_api; world := new_world |}.

Definition sample_credentials : info :=
  {| username := "root"; password := "calvin";
     info_token := "cm9vdDpjYWx2aW4="; host := None; valid := None |}.

(** the process right after startup, with only the default entry *)
Definition startup : Process :=
  {| hosts := {["default" := sample_credentials]};
     heap := [];
     outside := new_world |}.

(** ** What a method keeps of the session and of the world *)

(** the fields of the object that [get] builds its request from *)
Definition same_session (st st' : St) : Prop :=
  server (self st') = server (self st)
  /\ baseurl (self st') = baseurl (self st)
  /\ sslcert (self st') = sslcert (self st)
  /\ token (self st') = token (self st).

(** a step that issued no request, kept the session and only added
    records to the sink *)
Definition offline_step (st st' : St) : Prop :=
  same_session st st'
  /\ net_log (world st') = net_log (world st)
  /\ metrics (self st) `prefix_of` metrics (self st').

(** a computation all of whose runs are such steps, raising or not *)
Definition quiet {A} (m : M St A) : Prop :=
  forall st, offline_step st (snd (m st)).

(** the three requests of a pass, in the order of the collectors *)
Definition pass_requests (api : RedfishAPI) : list request :=
  map (get_request api) [resource Basics; resource Sensors; resource EventLog].

(** an entry of the sensor collection that gets a record *)
Definition emitting (entry : json) : bool :=
  match subscript entry "SensorType" with
  | Ok type => eq_str type "Temperature" || eq_str type "Tachometer"
  | Raise _ => false
  end.

(** one rendered line of the sink *)
Definition line (E : Env) (name : string) (labels : list (string * json))
    (value : json) : string :=
  "idrac_" +:+ name +:+ label_set E labels +:+ " " +:+ value_text E value.

(** the flag [1 if v == s else 0] *)
Definition flag (v : json) (s : string) : json :=
  JInt (if eq_str v s then 1 else 0).

(** ** Readings used for the registry and the handler *)

(** the probe of a new session for [t] is answered with a JSON body and
    status 200 (or the 0 that Python takes for false) *)
Definition probe_accepted (E : Env) (t : string) (i : info) (w : World)
    : bool :=
  match answer E "Chassis"
          (set_token (Some (info_token i))
             {| self := RedfishAPI_init t; world := w |}) with
  | Response code (Some _) => (code =? 200) || (code =? 0)
  | _ => false
  end.

(** an entry after [info['host'] = host; info['valid'] = valid] *)
Definition with_session (i : info) (r : nat) (ok : bool) : info :=
  {| username := username i; password := password i;
     info_token := info_token i; host := Some r; valid := Some ok |}.

(** the state in which a new session for [t] starts its first pass: the
    token is set and the probe has been sent *)
Definition probed (t : string) (i : info) (w : World) : St :=
  requested "Chassis"
    (set_token (Some (info_token i))
       {| self := RedfishAPI_init t; world := w |}).

(** the statuses [do_GET] writes *)
Definition known_status (s : Z) : bool :=
  (s =? 200) || (s =? 400) || (s =? 404) || (s =? 500).

(** the process after a first, accepted request for [idrac1], and the
    session object that request made *)
Definition served_once : Process :=
  snd (collect_metrics healthy_env "idrac1" startup).

Definition first_session : RedfishAPI :=
  default sample_api (heap served_once !! 0%nat).

(** the process after a first request for the target named [default],
    which no controller answers *)
Definition served_default : Process :=
  snd (collect_metrics healthy_env "default" startup).

(** a process whose registry has no entry at all *)
Definition no_hosts : Process :=
  {| hosts := ∅; heap := []; outside := new_world |}.

(** ** [encode_token] and the base64 of the standard library

    Bytes are characters; [b64encode] is the encoding of RFC 4648 that
    [base64.b64encode] computes: three bytes give four digits of six bits,
    most significant first, and a last group of one or two bytes is filled
    with zero bits and padded with [=]. *)

Definition b64_alphabet : string :=
  "ABCDEFGHIJKLMNOPQRSTUVWXYZabcdefghijklmnopqrstuvwxyz0123456789+/".

Definition pad : ascii := "="%char.

(** six bits, the most significant first *)
Definition sextet : Type := (bool * bool * bool * bool * bool * bool)%type.

Definition sextet_value (s : sextet) : nat :=
  let '(b5, b4, b3, b2, b1, b0) := s in
  (Nat.b2n b5 * 32 + Nat.b2n b4 * 16 + Nat.b2n b3 * 8
   + Nat.b2n b2 * 4 + Nat.b2n b1 * 2 + Nat.b2n b0)%nat.

Definition b64_char (s : sextet) : ascii :=
  default pad (String.get (sextet_value s) b64_alphabet).

Definition enc3 (a b c : ascii) : list ascii :=
  let 'Ascii a0 a1 a2 a3 a4 a5 a6 a7 := a in
  let 'Ascii b0 b1 b2 b3 b4 b5 b6 b7 := b in
  let 'Ascii c0 c1 c2 c3 c4 c5 c6 c7 := c in
  [b64_char (a7, a6, a5, a4, a3, a2); b64_char (a1, a0, b7, b6, b5, b4);
   b64_char (b3, b2, b1, b0, c7, c6); b64_char (c5, c4, c3, c2, c1, c0)].

Definition enc2 (a b : ascii) : list ascii :=
  let 'Ascii a0 a1 a2 a3 a4 a5 a6 a7 := a in
  let 'Ascii b0 b1 b2 b3 b4 b5 b6 b7 := b in
  [b64_char (a7, a6, a5, a4, a3, a2); b64_char (a1, a0, b7, b6, b5, b4);
   b64_char (b3, b2, b1, b0, false, false); pad].

Definition enc1 (a : ascii) : list ascii :=
  let 'Ascii a0 a1 a2 a3 a4 a5 a6 a7 := a in
  [b64_char (a7, a6, a5, a4, a3, a2);
   b64_char (a1, a0, false, false, false, false); pad; pad].

Fixpoint b64encode (l : list ascii) : list ascii :=
  match l with
  | [] => []
  | a :: l1 =>
      match l1 with
      | [] => enc1 a
      | b :: l2 =>
          match l2 with
          | [] => enc2 a b
          | c :: rest => (enc3 a b c ++ b64encode rest)%list
          end
      end
  end.

Definition is_ascii (c : ascii) : bool :=
  let 'Ascii _ _ _ _ _ _ _ b7 := c in negb b7.

(** [s.encode('ascii')]; [UnicodeEncodeError] is a [ValueError] *)
Definition encode_ascii (s : string) : result (list ascii) :=
  if forallb is_ascii (list_ascii_of_string s)
  then Ok (list_ascii_of_string s) else Raise ValueError.

(** [b.decode('ascii')]; [UnicodeDecodeError] is a [ValueError] *)
Definition decode_ascii (b : list ascii) : result string :=
  if forallb is_ascii b then Ok (string_of_list_ascii b) else Raise ValueError.

(** the text [f'{username}:{password}'] *)
Definition credentials_text (E : Env) (username password : json) : string :=
  py_str E username +:+ ":" +:+ py_str E password.

Definition encode_token (E : Env) (username password : json) : result string :=
  let token := credentials_text E username password in
  match encode_ascii token with
  | Raise e => Raise e
  | Ok token => decode_ascii (b64encode token)
  end.

(** *** The inverse of the encoding, to state what a token determines *)

Definition all_sextets : list sextet :=
  b5 ← [false; true]; b4 ← [false; true]; b3 ← [false; true];
  b2 ← [false; true]; b1 ← [false; true]; b0 ← [false; true];
  [(b5, b4, b3, b2, b1, b0)].

Definition b64_index (c : ascii) : option sextet :=
  List.find (fun s => Ascii.eqb (b64_char s) c) all_sextets.

Definition dec4 (c1 c2 c3 c4 : ascii) : option (list ascii) :=
  match b64_index c1, b64_index c2 with
  | Some (a7, a6, a5, a4, a3, a2), Some (a1, a0, b7, b6, b5, b4) =>
      let a := Ascii a0 a1 a2 a3 a4 a5 a6 a7 in
      if Ascii.eqb c3 pad then Some [a]
      else match b64_index c3 with
           | Some (b3, b2, b1, b0, c7, c6) =>
               let b := Ascii b0 b1 b2 b3 b4 b5 b6 b7 in
               if Ascii.eqb c4 pad then Some [a; b]
               else match b64_index c4 with
                    | Some (c5, c4, c3, c2, c1, c0) =>
                        Some [a; b; Ascii c0 c1 c2 c3 c4 c5 c6 c7]
                    | None => None
                    end
           | None => None
           end
  | _, _ => None
  end.

Fixpoint b64decode (l : list ascii) : option (list ascii) :=
  match l with
  | [] => Some []
  | c1 :: c2 :: c3 :: c4 :: rest =>
      match dec4 c1 c2 c3 c4, b64decode rest with
      | Some x, Some y => Some (x ++ y)%list
      | _, _ => None
      end
  | _ => None
  end.

(** a text without colon *)
Fixpoint no_colon (s : string) : bool :=
  match s with
  | EmptyString => true
  | String c rest => negb (Ascii.eqb c ":"%char) && no_colon rest
  end.

(** ** The script: from the command line to the running server

    What the script gets from outside is the record [Sys]: the option
    [--config], the files that can be opened, the YAML parser and whether
    the HTTP server starts.  A YAML document is a Python value like a JSON
    document; the keys of its mappings are taken to be texts. *)

Record Sys : Type := {
  (** [args.config]: [None] when the option is not given *)
  arg_config : option string;
  (** [open(path, 'r')]: the content, or [None] when it raises *)
  open_file : string -> option string;
  (** [yaml.full_load(file)]: the value, or [None] when it raises *)
  yaml_full_load : string -> option json;
  (** the text of the exception that [HTTPServer(...)] or [serve_forever()]
      raises for an address and a port, if any *)
  serve_error : json -> Z -> option string }.

(** how the script ends, or that it goes on serving *)
Inductive outcome : Type :=
| Exit (code : Z) (printed : string)
| Traceback (e : exn)
| Serving (address : json) (port : Z) (hosts : list (string * json)).

(** a step of the startup that may end the script *)
Inductive step (A : Type) : Type :=
| Done (a : A)
| Exits (code : Z) (printed : string)
| Fails (e : exn).
Arguments Done {A} a.
Arguments Exits {A} code printed.
Arguments Fails {A} e.

(** the truth value of a Python value *)
Definition py_truthy (v : json) : bool :=
  match v with
  | JNull => false
  | JBool b => b
  | JInt n => negb (n =? 0)
  | JFloat x => negb (PrimFloat.eqb x 0)
  | JStr s => negb (String.eqb s EmptyString)
  | JArr l => match l with [] => false | _ :: _ => true end
  | JObj d => match d with [] => false | _ :: _ => true end
  end.

(** ['k' in v] *)
Definition py_contains (k : string) (v : json) : result bool :=
  match v with
  | JObj d => Ok (match dict_get k d with Some _ => true | None => false end)
  | JArr l => Ok (existsb (fun x => eq_str x k) l)
  | JStr s => Ok (match String.index 0 k s with
                  | Some _ => true
                  | None => false
                  end)
  | _ => Raise TypeError
  end.

(** [d[k] = v] on a dict: the binding is replaced in place or added last *)
Fixpoint dict_set {A} (k : string) (v : A) (d : list (string * A))
    : list (string * A) :=
  match d with
  | [] => [(k, v)]
  | (k', v') :: rest =>
      if String.eqb k' k then (k, v) :: rest
      else (k', v') :: dict_set k v rest
  end.

(** [v[k] = x] with a text key *)
Definition set_item (v : json) (k : string) (x : json) : result json :=
  match v with
  | JObj d => Ok (JObj (dict_set k x d))
  | _ => Raise TypeError
  end.

(** the body of the loop over [hosts.items()] *)
Definition load_host (E : Env) (key : string) (value : json) : step json :=
  match py_contains "username" value with
  | Raise e => Fails e
  | Ok has_user =>
      match (if has_user then py_contains "password" value else Ok false) with
      | Raise e => Fails e
      | Ok false =>
          Exits 1 ("Username or password missing for host: " +:+ key)
      | Ok true =>
          match subscript value "username" with
          | Raise e => Fails e
          | Ok username =>
              match subscript value "password" with
              | Raise e => Fails e
              | Ok password =>
                  match encode_token E username password with
                  | Raise e => Fails e
                  | Ok token =>
                      match set_item value "token" (JStr token) with
                      | Raise e => Fails e
                      | Ok value => Done value
                      end
                  end
              end
          end
      end
  end.

Fixpoint load_hosts (E : Env) (hosts : list (string * json))
    : step (list (string * json)) :=
  match hosts with
  | [] => Done []
  | (key, value) :: rest =>
      match load_host E key value with
      | Exits code printed => Exits code printed
      | Fails e => Fails e
      | Done value =>
          match load_hosts E rest with
          | Exits code printed => Exits code printed
          | Fails e => Fails e
          | Done rest => Done ((key, value) :: rest)
          end
      end
  end.

(** [config['address']] if that is true, else ['0.0.0.0'] *)
Definition listen_address (config : json) : result json :=
  match method_get config "address" with
  | Raise e => Raise e
  | Ok a => if py_truthy a then subscript config "address"
            else Ok (JStr "0.0.0.0")
  end.

(** [int(config['port'])] if [config.get('port')] is true, else 9348 *)
Definition listen_port (E : Env) (config : json) : result Z :=
  match method_get config "port" with
  | Raise e => Raise e
  | Ok p => if py_truthy p then
              match subscript config "port" with
              | Raise e => Raise e
              | Ok p => py_int E p
              end
            else Ok 9348
  end.

Definition default_config_path : string := "/etc/prometheus/idrac.yml".

(** [args.config] if that is given and not empty, else the default *)
Definition config_path (S : Sys) : string :=
  match arg_config S with
  | Some (String c r) => String c r
  | _ => default_config_path
  end.

Definition main (E : Env) (S : Sys) : outcome :=
  let config := config_path S in
  match open_file S config with
  | None => Exit 1 ("Unable to open configuration file: " +:+ config)
  | Some file =>
      match yaml_full_load S file with
      | None => Exit 1 "Unable to parse configuration file"
      | Some config =>
          match listen_address config with
          | Raise e => Traceback e
          | Ok address =>
              match listen_port E config with
              | Raise e => Traceback e
              | Ok port =>
                  match subscript config "hosts" with
                  | Raise e => Traceback e
                  | Ok (JObj hosts) =>
                      match load_hosts E hosts with
                      | Exits code printed => Exit code printed
                      | Fails e => Traceback e
                      | Done hosts =>
                          match serve_error S address port with
                          | Some e =>
                              Exit 3 ("Unable to start HTTP server: " +:+ e)
                          | None => Serving address port hosts
                          end
                      end
                  | Ok _ => Traceback AttributeError
                  end
              end
          end
      end
  end.

(** *** Readings for the startup *)

(** a host entry as the server needs it: credentials and their token *)
Definition has_token (E : Env) (kv : string * json) : Prop :=
  exists u p tok,
    subscript (snd kv) "username" = Ok u
    /\ subscript (snd kv) "password" = Ok p
    /\ encode_token E u p = Ok tok
    /\ subscript (snd kv) "token" = Ok (JStr tok).

(** a host dict without one of the two credentials *)
Definition lacks_credentials (d : list (string * json)) : bool :=
  match dict_get "username" d, dict_get "password" d with
  | Some _, Some _ => false
  | _, _ => true
  end.

(** *** A sample configuration *)

Definition sample_config : json :=
  JObj [("port", JInt 0);
        ("hosts",
         JObj [("default",
                JObj [("username", JStr "root"); ("password", JStr "calvin")]);
               ("idrac9",
                JObj [("username", JStr "monitor"); ("password", JInt 1234)])])].

Definition sample_sys : Sys :=
  {| arg_config := None;
     open_file := fun path =>
       if String.eqb path default_config_path then Some "hosts: ..." else None;
     yaml_full_load := fun _ => Some sample_config;
     serve_error := fun _ _ => None |}.

Definition broken_hosts : list (string * json) :=
  [("default", JObj [("username", JStr "root"); ("password", JStr "calvin")]);
   ("idrac7", JObj [("username", JStr "root")]);
   ("idrac8", JObj [])].

(** a system whose configuration names a host without password *)
Definition broken_config : json := JObj [("hosts", JObj broken_hosts)].

Definition broken_sys : Sys :=
  {| arg_config := Some "idrac.yml";
     open_file := fun path =>
       if String.eqb path "idrac.yml" then Some "hosts: ..." else None;
     yaml_full_load := fun _ => Some broken_config;
     serve_error := fun _ _ => Some "address in use" |}.

(** a text that starts with a lower-case letter *)
Definition starts_lower (s : string) : bool :=
  match s with
  | EmptyString => false
  | String c _ => is_lower c
  end.

(** a text with a line feed in it *)
Fixpoint has_newline (s : string) : bool :=
  match s with
  | EmptyString => false
  | String c rest => Ascii.eqb c "010"%char || has_newline rest
  end.

(** the lines of a text, each up to its line feed *)
Fixpoint split_lines (s : string) : list string :=
  match s with
  | EmptyString => []
  | String c rest =>
      if Ascii.eqb c "010"%char then EmptyString :: split_lines rest
      else match split_lines rest with
           | [] => [String c EmptyString]
           | l :: ls => String c l :: ls
           end
  end.

(** two objects for the same session: what [get] builds requests from *)
Definition same_fields (a b : RedfishAPI) : Prop :=
  server b = server a /\ baseurl b = baseurl a
  /\ sslcert b = sslcert a /\ token b = token a.

(** an event of a run in which [t] was served by one pass of the session
    [obj], without a probe *)
Definition served_without_probe (t : string) (obj : RedfishAPI) (ev : event)
    : Prop :=
  ev_target ev = t ->
  exists n, (1 <= n <= 3)%nat /\ ev_requests ev = take n (pass_requests obj).

(** the loop body of the two collectors that have a loop *)
Definition entry_body (E : Env) (c : collector) : json -> M St unit :=
  match c with
  | Basics => fun _ => ret tt
  | Sensors => collect_sensors_entry E
  | EventLog => collect_sel_entry E
  end.

(** a sensor collection whose second entry has no name *)
Definition nameless_sensor : json :=
  JObj [("DeviceID", JStr "F2"); ("EnabledState", JStr "Enabled");
        ("SensorType", JStr "Tachometer"); ("CurrentReading", JInt 6900)].

Definition nameless_env : Env :=
  table_env
    [(url_sensors,
      Response 200
        (Some (JObj [("Members",
                      JArr [sample_temperature; nameless_sensor;
                            sample_fan])])))].

(** a text that is one lone surrogate, as the escape [\ud800] of a JSON
    document gives it, and a controller that has it as BIOS version *)
Definition surrogate_text : string :=
  String "237"%char (String "160"%char (String "128"%char EmptyString)).

Definition surrogate_env : Env :=
  table_env
    [(url_chassis, Response 200 (Some (JObj [])));
     (url_system,
      Response 200
        (Some (JObj [("PowerState", JStr "On");
                     ("Status", JObj [("Health", JStr "OK")]);
                     ("IndicatorLED", JStr "Off");
                     ("MemorySummary",
                      JObj [("TotalSystemMemoryGiB", JFloat 64)]);
                     ("ProcessorSummary",
                      JObj [("Model", JStr "Xeon"); ("Count", JInt 2)]);
                     ("BiosVersion", JStr surrogate_text)])));
     (url_sensors, Response 404 (Some (JObj [])));
     (url_sel, Response 404 (Some (JObj [])))].

(** ** What the collectors need of a document to return

    Every field the collector reads is there, and every value it
    converts can be converted.  The values it only compares (power state,
    health, LED, enabled state, sensor type) may be of any kind. *)

Definition complete_system (E : Env) (doc : json) : Prop :=
  exists power status health led memory gibtext gib v processor model count
         bios,
    subscript doc "PowerState" = Ok power
    /\ subscript doc "Status" = Ok status
    /\ subscript status "Health" = Ok health
    /\ subscript doc "IndicatorLED" = Ok led
    /\ subscript doc "MemorySummary" = Ok memory
    /\ subscript memory "TotalSystemMemoryGiB" = Ok gibtext
    /\ py_float E gibtext = Ok gib
    /\ int_of_float (gib * float_of_Z (1024 ^ 4) / float_of_Z (10 ^ 9)) = Ok v
    /\ subscript doc "ProcessorSummary" = Ok processor
    /\ subscript processor "Model" = Ok model
    /\ subscript processor "Count" = Ok count
    /\ subscript doc "BiosVersion" = Ok bios.

Definition readable_sensor (E : Env) (entry : json) : Prop :=
  exists name id state type,
    subscript entry "ElementName" = Ok name
    /\ subscript entry "DeviceID" = Ok id
    /\ subscript entry "EnabledState" = Ok state
    /\ subscript entry "SensorType" = Ok type
    /\ (type = JStr "Temperature" ->
        exists raw x, subscript entry "CurrentReading" = Ok raw
                      /\ py_float E raw = Ok x)
    /\ (type = JStr "Tachometer" ->
        exists raw n, subscript entry "CurrentReading" = Ok raw
                      /\ py_int E raw = Ok n).

Definition readable_log_entry (E : Env) (entry : json) : Prop :=
  exists id message component severity created tm t now v,
    subscript entry "Id" = Ok id
    /\ subscript entry "Message" = Ok (JStr message)
    /\ subscript entry "SensorType" = Ok component
    /\ subscript entry "Severity" = Ok severity
    /\ subscript entry "Created" = Ok created
    /\ isoparse_timetuple E created = Ok tm
    /\ mktime E tm = Ok t
    /\ int_of_float (wall_clock E now - t) = Ok v.

Definition readable_entry (E : Env) (c : collector) : json -> Prop :=
  match c with
  | Basics => fun _ => True
  | Sensors => readable_sensor E
  | EventLog => readable_log_entry E
  end.



(** a configuration that names an address and a port of its own *)
Definition bound_config : json :=
  JObj [("address", JStr "127.0.0.1"); ("port", JInt 9000);
        ("hosts",
         JObj [("default",
                JObj [("username", JStr "root"); ("password", JStr "calvin")])])].

Definition bound_sys : Sys :=
  {| arg_config := Some "idrac.yml";
     open_file := fun path =>
       if String.eqb path "idrac.yml" then Some "address: ..." else None;
     yaml_full_load := fun _ => Some bound_config;
     serve_error := fun _ _ => None |}.

(** a system with the sample configuration on which no server can start *)
Definition busy_sys : Sys :=
  {| arg_config := None;
     open_file := fun path =>
       if String.eqb path default_config_path then Some "hosts: ..." else None;
     yaml_full_load := fun _ => Some sample_config;
     serve_error := fun _ _ => Some "address in use" |}.

(** * Properties *)

(** ** Strings *)

Lemma append_cons (c : ascii) (s t : string) :
  String c s +:+ t = String c (s +:+ t).
Proof. reflexivity. Qed.

Lemma append_empty_l (s : string) : EmptyString +:+ s = s.
Proof. reflexivity. Qed.

Lemma append_empty_r (s : string) : s +:+ EmptyString = s.
Proof.
  induction s as [|c s IH]; [reflexivity|].
  rewrite append_cons, IH. reflexivity.
Qed.

Lemma append_assoc (s t u : string) : (s +:+ t) +:+ u = s +:+ (t +:+ u).
Proof.
  induction s as [|c s IH]; [reflexivity|].
  rewrite !append_cons, IH. reflexivity.
Qed.

Lemma join_cons_cons (sep x y : string) (l : list string) :
  join sep (x :: y :: l) = x +:+ sep +:+ join sep (y :: l).
Proof. reflexivity. Qed.

(** ** The metric sink *)

Lemma join_newline_unlines (x : string) (l : list string) :
  join newline (x :: l) +:+ newline = unlines (x :: l).
Proof.
  revert x. induction l as [|y l IH]; intros x.
  - cbn [join unlines]. rewrite append_empty_r. reflexivity.
  - rewrite join_cons_cons, !append_assoc, IH. reflexivity.
Qed.

(** C8: [metrics_get] returns the records joined by line feeds with one
    more line feed at the end (for a sink that holds records: every record
    followed by a line feed), leaves the state as it was, and a second call
    right after the first returns the same text. *)
Theorem metrics_get_renders_and_keeps (st : St) :
  metrics_get st
  = (Ok (join newline (metrics (self st)) +:+ newline), st)
  /\ fst (metrics_get st)
     = Ok match metrics (self st) with
          | [] => newline
          | _ :: _ => unlines (metrics (self st))
          end
  /\ (a <~ metrics_get ; b <~ metrics_get ; ret (a, b)) st
     = (Ok (join newline (metrics (self st)) +:+ newline,
            join newline (metrics (self st)) +:+ newline), st).
Proof.
  split; [reflexivity|]. split; [|reflexivity].
  unfold metrics_get, gets. cbn [fst].
  destruct (metrics (self st)) as [|x l]; [reflexivity|].
  rewrite join_newline_unlines. reflexivity.
Qed.

Lemma join_comma_labels (E : Env) (kv : string * json)
    (l : list (string * json)) :
  "{" +:+ join "," (map (label_pair E) (kv :: l)) +:+ "}" = label_set E (kv :: l).
Proof.
  cbn [label_set]. f_equal.
  revert kv. induction l as [|kv' l IH]; intros kv.
  - reflexivity.
  - cbn [map]. rewrite join_cons_cons, !append_assoc.
    cbn [map] in IH. rewrite IH. reflexivity.
Qed.

Lemma metrics_add_eq (E : Env) (name : string) (args : list (string * json))
    (value : json) (st : St) :
  metrics_add E name args value st
  = (Ok tt,
     set_metrics (metrics (self st) ++
                  ["idrac_" +:+ name +:+ label_set E args +:+ " "
                   +:+ value_text E value]) st).
Proof.
  unfold metrics_add, modify.
  assert (Hv : match value with JNull => "NaN" | _ => py_str E value end
               = value_text E value) by (destruct value; reflexivity).
  destruct args as [|kv l].
  - destruct value; reflexivity.
  - change (fun kv0 : string * json =>
              fst kv0 +:+ "=" +:+ dquote +:+ py_str E (snd kv0) +:+ dquote)
      with (label_pair E).
    rewrite join_comma_labels. destruct value; reflexivity.
Qed.

(** C9: [metrics_add] appends one line and changes nothing else.  The line
    is the prefix [idrac_], the name, the label set, a blank and the value.
    The label set is empty text for an empty dict (no braces) and otherwise
    the pairs [k="v"] between braces, separated by commas.  The value [None]
    is written [NaN].  A text label value is copied between the quotes as it
    is, quotes inside it included. *)
Theorem metrics_add_line (E : Env) (name : string)
    (args : list (string * json)) (value : json) (st : St) :
  metrics_add E name args value st
  = (Ok tt,
     set_metrics (metrics (self st) ++
                  ["idrac_" +:+ name +:+ label_set E args +:+ " "
                   +:+ value_text E value]) st)
  /\ label_set E [] = EmptyString
  /\ (forall k v rest,
        label_set E ((k, v) :: rest)
        = "{" +:+ k +:+ "=" +:+ dquote +:+ py_str E v +:+ dquote
          +:+ more_labels E rest)
  /\ value_text E JNull = "NaN"
  /\ (forall k s, label_pair E (k, JStr s) = k +:+ "=" +:+ dquote +:+ s +:+ dquote)
  /\ label_pair E ("k", JStr ("a" +:+ dquote +:+ "b"))
     = "k=" +:+ dquote +:+ "a" +:+ dquote +:+ "b" +:+ dquote.
Proof.
  split; [apply metrics_add_eq|].
  split; [reflexivity|].
  split.
  { intros k v rest. cbn [label_set]. unfold label_pair. cbn [fst snd].
    rewrite !append_assoc. reflexivity. }
  split; [reflexivity|]. split; [intros; reflexivity|reflexivity].
Qed.

(** ** The transport client *)

Lemma get_unfold (E : Env) (url : string) (st : St) :
  RedfishAPI_get E url st
  = match answer E url st with
    | TransportFailure => (Raise RequestException, requested url st)
    | Response code None => (Raise JSONDecodeError, requested url st)
    | Response code (Some doc) =>
        (Ok {| rv_json := doc;
               rv_error := if code =? 200 then None else Some code |},
         requested url st)
    end.
Proof.
  unfold RedfishAPI_get, answer, requested.
  destruct (http E _ _) as [|code [doc|]]; reflexivity.
Qed.

(** C2, as the code has it: [get] issues one request.  On status 200 with
    a JSON body it returns the document and no error.  On any other status
    with a JSON body it returns normally, with that body as the document
    (not an empty one) and the status as the error.  A transport exception
    and a body that is not JSON are not caught: [get] raises. *)
Theorem get_outcomes (E : Env) (url : string) (st : St) :
  (forall doc, answer E url st = Response 200 (Some doc) ->
     RedfishAPI_get E url st
     = (Ok {| rv_json := doc; rv_error := None |}, requested url st))
  /\ (forall code doc, code <> 200 ->
        answer E url st = Response code (Some doc) ->
        RedfishAPI_get E url st
        = (Ok {| rv_json := doc; rv_error := Some code |}, requested url st))
  /\ (answer E url st = TransportFailure ->
        RedfishAPI_get E url st = (Raise RequestException, requested url st))
  /\ (forall code, answer E url st = Response code None ->
        RedfishAPI_get E url st = (Raise JSONDecodeError, requested url st)).
Proof.
  rewrite get_unfold. repeat split.
  - intros doc ->. reflexivity.
  - intros code doc Hc ->.
    destruct (Z.eqb_spec code 200); [contradiction|reflexivity].
  - intros ->. reflexivity.
  - intros code ->. reflexivity.
Qed.

Lemma get_outcomes_witness :
  RedfishAPI_get healthy_env "Chassis" sample_st
  = (Ok {| rv_json := JObj []; rv_error := None |},
     requested "Chassis" sample_st)
  /\ RedfishAPI_get unauthorized_env "Chassis" sample_st
     = (Ok {| rv_json := JObj [("error", JStr "denied")];
              rv_error := Some 401 |},
        requested "Chassis" sample_st)
  /\ RedfishAPI_get offline_env "Chassis" sample_st
     = (Raise RequestException, requested "Chassis" sample_st).
Proof.
  split; [|split].
  - apply (proj1 (get_outcomes healthy_env "Chassis" sample_st)).
    reflexivity.
  - apply (proj1 (proj2 (get_outcomes unauthorized_env "Chassis" sample_st)));
      [lia|reflexivity].
  - apply (proj1 (proj2 (proj2
             (get_outcomes offline_env "Chassis" sample_st)))).
    reflexivity.
Defined.

(** C2 as the specification words it fails: with the controller switched
    off [get] raises, and on status 401 it returns the body it was sent. *)
Lemma get_does_not_absorb_failure :
  ~ get_absorbs_failure offline_env "Chassis" sample_st
  /\ ~ get_absorbs_failure unauthorized_env "Chassis" sample_st.
Proof.
  split; intros H.
  - destruct (H eq_refl) as (code & st' & Hget). vm_compute in Hget.
    discriminate Hget.
  - destruct (H eq_refl) as (code & st' & Hget). vm_compute in Hget.
    discriminate Hget.
Qed.

(** ** Collectors and the pass *)

Lemma error_status_inv (o : http_outcome) :
  error_status o = true ->
  exists code doc, o = Response code (Some doc) /\ code <> 200 /\ code <> 0.
Proof.
  destruct o as [|code [doc|]]; cbn; try discriminate.
  intros H. apply andb_prop in H as [H1 H2].
  exists code, doc. repeat split.
  - intros ->. discriminate H1.
  - intros ->. discriminate H2.
Qed.

Lemma get_error_status (E : Env) (url : string) (st : St) :
  error_status (answer E url st) = true ->
  exists res, RedfishAPI_get E url st = (Ok res, requested url st)
              /\ truthy_code (rv_error res) = true.
Proof.
  intros H. apply error_status_inv in H as (code & doc & Ha & H200 & H0).
  rewrite get_unfold, Ha. eexists. split; [reflexivity|]. cbn.
  destruct (Z.eqb_spec code 200); [contradiction|]. cbn.
  destruct (Z.eqb_spec code 0); [contradiction|reflexivity].
Qed.

Lemma collector_returns_on_error_status (E : Env) (c : collector) (st : St) :
  error_status (answer E (resource c) st) = true ->
  run_collector E c st = (Ok tt, requested (resource c) st).
Proof.
  intros H. apply get_error_status in H as (res & Hget & Herr).
  destruct c; cbn [run_collector resource] in *;
    unfold collect_basics, collect_sensors, collect_sel, bind;
    rewrite Hget, Herr; reflexivity.
Qed.

Lemma collector_raises_with_get (E : Env) (c : collector) (st : St)
    (e : exn) (st' : St) :
  RedfishAPI_get E (resource c) st = (Raise e, st') ->
  run_collector E c st = (Raise e, st').
Proof.
  intros Hget.
  destruct c; cbn [run_collector resource] in *;
    unfold collect_basics, collect_sensors, collect_sel, bind;
    rewrite Hget; reflexivity.
Qed.

Lemma pass_unfold (E : Env) (st : St) :
  RedfishAPI_collect_metrics E st
  = match run_collector E Basics (set_metrics [] st) with
    | (Raise e, s1) => (Raise e, s1)
    | (Ok _, s1) =>
        match run_collector E Sensors s1 with
        | (Raise e, s2) => (Raise e, s2)
        | (Ok _, s2) =>
            match run_collector E EventLog s2 with
            | (Raise e, s3) => (Raise e, s3)
            | (Ok _, s3) => (Ok (rendered s3), s3)
            end
        end
    end.
Proof.
  unfold RedfishAPI_collect_metrics, bind, metrics_clear, modify, run_collector.
  destruct (collect_basics E _) as [[[]|e] s1]; [|reflexivity].
  destruct (collect_sensors E _) as [[[]|e] s2]; [|reflexivity].
  destruct (collect_sel E _) as [[[]|e] s3]; reflexivity.
Qed.

(** a loop that returns ran its body to the end on every entry *)
Lemma for_each_returns {A} (body : A -> M St unit) (l : list A) :
  forall s s',
    for_each l body s = (Ok tt, s') ->
    Forall (fun x => exists s1 s2, body x s1 = (Ok tt, s2)) l.
Proof.
  induction l as [|x l IH]; intros s s'; cbn [for_each]; [constructor|].
  unfold bind. destruct (body x s) as [[[]|e] s1] eqn:Hx; [|discriminate].
  intros Hl. constructor; [eauto|exact (IH s1 s' Hl)].
Qed.

Lemma collect_basics_returns_complete (E : Env) (st st' : St) (doc : json) :
  answer E (resource Basics) st = Response 200 (Some doc) ->
  collect_basics E st = (Ok tt, st') ->
  complete_system E doc.
Proof.
  intros Ha. cbn [resource] in Ha. unfold collect_basics.
  cbv beta iota delta [bind lift ret]. rewrite get_unfold, Ha.
  cbn [rv_error rv_json Z.eqb Pos.eqb truthy_code].
  destruct (subscript doc "PowerState") as [power|] eqn:H1; [|discriminate].
  rewrite metrics_add_eq. cbv beta iota.
  destruct (subscript doc "Status") as [status|] eqn:H2; [|discriminate].
  destruct (subscript status "Health") as [health|] eqn:H3; [|discriminate].
  rewrite metrics_add_eq. cbv beta iota.
  destruct (subscript doc "IndicatorLED") as [led|] eqn:H4; [|discriminate].
  rewrite metrics_add_eq. cbv beta iota.
  destruct (subscript doc "MemorySummary") as [memory|] eqn:H5;
    [|discriminate].
  destruct (subscript memory "TotalSystemMemoryGiB") as [gibtext|] eqn:H6;
    [|discriminate].
  destruct (py_float E gibtext) as [gib|] eqn:H7; [|discriminate].
  destruct (int_of_float _) as [v|] eqn:H8; [|discriminate].
  rewrite metrics_add_eq. cbv beta iota.
  destruct (subscript doc "ProcessorSummary") as [processor|] eqn:H9;
    [|discriminate].
  destruct (subscript processor "Model") as [model|] eqn:H10; [|discriminate].
  destruct (subscript processor "Count") as [count|] eqn:H11; [|discriminate].
  rewrite metrics_add_eq. cbv beta iota.
  destruct (subscript doc "BiosVersion") as [bios|] eqn:H12; [|discriminate].
  intros _. unfold complete_system.
  exists power, status, health, led, memory, gibtext, gib, v, processor,
    model, count, bios.
  repeat split; assumption.
Qed.

Lemma collect_basics_complete_returns (E : Env) (st : St) (doc : json) :
  answer E (resource Basics) st = Response 200 (Some doc) ->
  complete_system E doc ->
  exists st', collect_basics E st = (Ok tt, st').
Proof.
  intros Ha (power & status & health & led & memory & gibtext & gib & v
             & processor & model & count & bios & H1 & H2 & H3 & H4 & H5
             & H6 & H7 & H8 & H9 & H10 & H11 & H12).
  cbn [resource] in Ha. unfold collect_basics.
  cbv beta iota delta [bind lift ret]. rewrite get_unfold, Ha.
  cbn [rv_error rv_json Z.eqb Pos.eqb truthy_code].
  rewrite H1, metrics_add_eq. cbv beta iota.
  rewrite H2, H3, metrics_add_eq. cbv beta iota.
  rewrite H4, metrics_add_eq. cbv beta iota.
  rewrite H5, H6, H7, H8, metrics_add_eq. cbv beta iota.
  rewrite H9, H10, H11, metrics_add_eq. cbv beta iota.
  rewrite H12, metrics_add_eq. eexists. reflexivity.
Qed.

Lemma sensors_entry_returns_readable (E : Env) (entry : json) (s s' : St) :
  collect_sensors_entry E entry s = (Ok tt, s') -> readable_sensor E entry.
Proof.
  unfold collect_sensors_entry. cbv beta iota delta [bind lift ret].
  destruct (subscript entry "ElementName") as [name|] eqn:H1; [|discriminate].
  destruct (subscript entry "DeviceID") as [id|] eqn:H2; [|discriminate].
  destruct (subscript entry "EnabledState") as [state|] eqn:H3;
    [|discriminate].
  destruct (subscript entry "SensorType") as [type|] eqn:H4; [|discriminate].
  intros H. exists name, id, state, type. repeat split; try assumption.
  - intros ->. cbn in H.
    destruct (subscript entry "CurrentReading") as [raw|]; [|discriminate].
    destruct (py_float E raw) as [x|] eqn:Hx; [|discriminate]. eauto.
  - intros ->. cbn in H.
    destruct (subscript entry "CurrentReading") as [raw|]; [|discriminate].
    destruct (py_int E raw) as [n|] eqn:Hn; [|discriminate]. eauto.
Qed.

Lemma sel_entry_returns_readable (E : Env) (entry : json) (s s' : St) :
  collect_sel_entry E entry s = (Ok tt, s') -> readable_log_entry E entry.
Proof.
  unfold collect_sel_entry, sel_entry_record, time_time.
  cbv beta iota delta [bind lift ret].
  destruct (subscript entry "Id") as [id|] eqn:H1; [|discriminate].
  destruct (subscript entry "Message") as [message|] eqn:H2; [|discriminate].
  destruct (method_strip message ".") as [m|] eqn:H3; [|discriminate].
  destruct (subscript entry "SensorType") as [component|] eqn:H4;
    [|discriminate].
  destruct (subscript entry "Severity") as [severity|] eqn:H5;
    [|discriminate].
  destruct (subscript entry "Created") as [created|] eqn:H6; [|discriminate].
  destruct (isoparse_timetuple E created) as [tm|] eqn:H7; [|discriminate].
  destruct (mktime E tm) as [t|] eqn:H8; [|discriminate].
  destruct (int_of_float _) as [v|] eqn:H9; [|discriminate].
  intros _. destruct message; try discriminate H3.
  exists id, s0, component, severity, created, tm, t,
    (clock_reads (world s)), v.
  repeat split; assumption.
Qed.

Lemma loop_collector_returns_readable (E : Env) (c : collector) (st st' : St)
    (doc : json) :
  c <> Basics ->
  answer E (resource c) st = Response 200 (Some doc) ->
  run_collector E c st = (Ok tt, st') ->
  exists members entries,
    method_get doc "Members" = Ok members
    /\ py_iter members = Ok entries
    /\ Forall (readable_entry E c) entries.
Proof.
  intros Hc Ha.
  destruct c; [contradiction| |]; cbn [run_collector resource readable_entry] in *;
    unfold collect_sensors, collect_sel; cbv beta iota delta [bind lift ret];
    rewrite get_unfold, Ha;
    cbn [rv_error rv_json Z.eqb Pos.eqb truthy_code];
    (destruct (method_get doc "Members") as [members|]; [|discriminate]);
    (destruct (py_iter members) as [entries|] eqn:Hm; [|discriminate]);
    intros Hl; exists members, entries; (split; [reflexivity|]);
    (split; [exact Hm|]);
    apply for_each_returns in Hl;
    (eapply Forall_impl; [exact Hl|]); intros x (s1 & s2 & Hx).
  - exact (sensors_entry_returns_readable E x s1 s2 Hx).
  - exact (sel_entry_returns_readable E x s1 s2 Hx).
Qed.

(** C1, as the code has it.  A collector whose fetch is answered with an
    error status and a JSON body adds no record and returns normally, so
    the next collector runs.  Nothing else is absorbed: no collector has a
    catch.  A transport exception or a body that is not JSON raises out of
    the collector.  On an answer with status 200 a collector returns only
    if the document has every field the collector reads and every value
    it converts or iterates can be converted or iterated; a missing
    field raises ([PowerState] and [Members] are shown with their
    exceptions).  The basics collector returns exactly then: a value it
    only compares, like the power state, is never refused.  When a
    collector raises, the pass raises the same
    exception in the state the collector left, without running the
    collectors after it; the pass returns the rendered sink only when all
    three returned. *)
Theorem collectors_absorb_error_status_only (E : Env) (st : St) :
  (forall c, error_status (answer E (resource c) st) = true ->
     run_collector E c st = (Ok tt, requested (resource c) st))
  /\ (forall c, answer E (resource c) st = TransportFailure ->
        run_collector E c st
        = (Raise RequestException, requested (resource c) st))
  /\ (forall c code, answer E (resource c) st = Response code None ->
        run_collector E c st
        = (Raise JSONDecodeError, requested (resource c) st))
  /\ (forall doc, answer E (resource Basics) st = Response 200 (Some doc) ->
        subscript doc "PowerState" = Raise (KeyError "PowerState") ->
        run_collector E Basics st
        = (Raise (KeyError "PowerState"), requested (resource Basics) st))
  /\ (forall c doc, c <> Basics ->
        answer E (resource c) st = Response 200 (Some doc) ->
        method_get doc "Members" = Ok JNull ->
        run_collector E c st = (Raise TypeError, requested (resource c) st))
  /\ (forall e s1,
        run_collector E Basics (set_metrics [] st) = (Raise e, s1) ->
        RedfishAPI_collect_metrics E st = (Raise e, s1))
  /\ (forall e s1 s2,
        run_collector E Basics (set_metrics [] st) = (Ok tt, s1) ->
        run_collector E Sensors s1 = (Raise e, s2) ->
        RedfishAPI_collect_metrics E st = (Raise e, s2))
  /\ (forall e s1 s2 s3,
        run_collector E Basics (set_metrics [] st) = (Ok tt, s1) ->
        run_collector E Sensors s1 = (Ok tt, s2) ->
        run_collector E EventLog s2 = (Raise e, s3) ->
        RedfishAPI_collect_metrics E st = (Raise e, s3))
  /\ (forall s1 s2 s3,
        run_collector E Basics (set_metrics [] st) = (Ok tt, s1) ->
        run_collector E Sensors s1 = (Ok tt, s2) ->
        run_collector E EventLog s2 = (Ok tt, s3) ->
        RedfishAPI_collect_metrics E st = (Ok (rendered s3), s3))
  /\ (forall doc,
        answer E (resource Basics) st = Response 200 (Some doc) ->
        (complete_system E doc
         <-> exists st', run_collector E Basics st = (Ok tt, st')))
  /\ (forall c doc st', c <> Basics ->
        answer E (resource c) st = Response 200 (Some doc) ->
        run_collector E c st = (Ok tt, st') ->
        exists members entries,
          method_get doc "Members" = Ok members
          /\ py_iter members = Ok entries
          /\ Forall (readable_entry E c) entries).
Proof.
  split; [intros c; apply collector_returns_on_error_status|].
  split.
  { intros c Ha. apply collector_raises_with_get.
    rewrite get_unfold, Ha. reflexivity. }
  split.
  { intros c code Ha. apply collector_raises_with_get.
    rewrite get_unfold, Ha. reflexivity. }
  split.
  { intros doc Ha Hsub. cbn [run_collector resource] in *.
    unfold collect_basics, bind. rewrite get_unfold, Ha. cbn.
    unfold lift. rewrite Hsub. reflexivity. }
  split.
  { intros c doc Hc Ha Hget.
    destruct c; [contradiction| |]; cbn [run_collector resource] in *;
      unfold collect_sensors, collect_sel, bind;
      rewrite get_unfold, Ha; cbn; unfold lift; rewrite Hget; reflexivity. }
  rewrite pass_unfold.
  split; [intros e s1 ->; reflexivity|].
  split; [intros e s1 s2 -> ->; reflexivity|].
  split; [intros e s1 s2 s3 -> -> ->; reflexivity|].
  split; [intros s1 s2 s3 -> -> ->; reflexivity|].
  split.
  { intros doc Ha. split.
    - exact (collect_basics_complete_returns E st doc Ha).
    - intros [st' Hr].
      exact (collect_basics_returns_complete E st st' doc Ha Hr). }
  intros c doc st' Hc Ha Hr.
  exact (loop_collector_returns_readable E c st st' doc Hc Ha Hr).
Qed.

Lemma collectors_absorb_error_status_only_witness :
  run_collector empty_env Sensors sample_st
  = (Ok tt, requested (resource Sensors) sample_st)
  /\ run_collector offline_env EventLog sample_st
     = (Raise RequestException, requested (resource EventLog) sample_st)
  /\ RedfishAPI_collect_metrics bare_system_env sample_st
     = (Raise (KeyError "PowerState"), requested (resource Basics) sample_st)
  /\ (exists text, fst (RedfishAPI_collect_metrics no_system_env sample_st)
                   = Ok text)
  /\ length (metrics (self (snd (RedfishAPI_collect_metrics no_system_env
                                   sample_st)))) = 3%nat
  /\ complete_system healthy_env sample_system
  /\ (exists members,
        method_get sample_sel "Members" = Ok members
        /\ py_iter members = Ok [sample_log_entry "The battery is low."]
        /\ Forall (readable_entry healthy_env EventLog) [sample_log_entry "The battery is low."]).
Proof.
  split; [|split; [|split; [|split; [eexists; reflexivity|
    split; [reflexivity|split]]]]].
  4: { apply (proj1 (proj2 (proj2 (proj2 (proj2 (proj2 (proj2 (proj2 (proj2
                (proj2 (collectors_absorb_error_status_only
                          healthy_env sample_st))))))))))
                sample_system eq_refl).
       exists (snd (run_collector healthy_env Basics sample_st)).
       vm_compute. reflexivity. }
  4: { destruct (proj2 (proj2 (proj2 (proj2 (proj2 (proj2 (proj2 (proj2 (proj2
                  (proj2 (collectors_absorb_error_status_only
                            healthy_env sample_st))))))))))
                  EventLog sample_sel
                  (snd (run_collector healthy_env EventLog sample_st)))
         as (members & entries & Hm & Hi & Hr).
       - discriminate.
       - reflexivity.
       - vm_compute. reflexivity.
       - exists members. split; [exact Hm|].
         assert (entries = [sample_log_entry "The battery is low."]) as ->.
         { cbv in Hm. injection Hm as <-. cbv in Hi. injection Hi as <-.
           reflexivity. }
         split; [exact Hi|exact Hr]. }
  - apply (proj1 (collectors_absorb_error_status_only empty_env sample_st)).
    reflexivity.
  - apply (proj1 (proj2
             (collectors_absorb_error_status_only offline_env sample_st))).
    reflexivity.
  - apply (proj1 (proj2 (proj2 (proj2 (proj2 (proj2
             (collectors_absorb_error_status_only
                bare_system_env sample_st))))))).
    reflexivity.
Defined.

(** C1 as the specification words it fails: a system resource without its
    fields makes the basics collector raise, the pass raises with it, and
    the sensors and the event log, which would have answered, are never
    asked (one request was issued); the handler answers 500 with no body. *)
Lemma missing_field_aborts_pass :
  RedfishAPI_collect_metrics bare_system_env sample_st
  = (Raise (KeyError "PowerState"), requested (resource Basics) sample_st)
  /\ ~ pass_succeeds bare_system_env sample_st
  /\ fst (do_GET bare_system_env "/metrics?target=idrac1" startup)
     = Ok (respond 500 EmptyString).
Proof.
  split; [reflexivity|]. split; [|reflexivity].
  intros (text & st' & H). vm_compute in H. discriminate H.
Qed.

(** C10: a sink without records renders as one line feed, a text of
    length one.  A pass in which the three fetches are answered with an
    error status returns that text. *)
Theorem empty_pass_renders_newline (E : Env) (st : St) :
  let s0 := set_metrics [] st in
  let s1 := requested (resource Basics) s0 in
  let s2 := requested (resource Sensors) s1 in
  let s3 := requested (resource EventLog) s2 in
  error_status (answer E (resource Basics) s0) = true ->
  error_status (answer E (resource Sensors) s1) = true ->
  error_status (answer E (resource EventLog) s2) = true ->
  RedfishAPI_collect_metrics E st = (Ok newline, s3)
  /\ metrics (self s3) = []
  /\ metrics_clear st = (Ok tt, s0)
  /\ metrics_get s0 = (Ok newline, s0)
  /\ String.length newline = 1%nat.
Proof.
  intros s0 s1 s2 s3. subst s0 s1 s2 s3. intros H0 H1 H2.
  split; [|repeat split].
  rewrite pass_unfold.
  rewrite (collector_returns_on_error_status E Basics _ H0).
  rewrite (collector_returns_on_error_status E Sensors _ H1).
  rewrite (collector_returns_on_error_status E EventLog _ H2).
  reflexivity.
Qed.

Lemma empty_pass_renders_newline_witness :
  fst (RedfishAPI_collect_metrics empty_env sample_st) = Ok newline
  /\ fst (do_GET empty_env "/metrics?target=idrac1" startup)
     = Ok (respond 200 newline).
Proof.
  split; [|reflexivity].
  rewrite (proj1 (empty_pass_renders_newline empty_env sample_st
                    eq_refl eq_refl eq_refl)).
  reflexivity.
Defined.

(** ** The request handler *)

Lemma span_lower_head (c : ascii) (rest : string) :
  fst (span_lower (String c rest))
  = if is_lower c then String c (fst (span_lower rest)) else EmptyString.
Proof.
  cbn [span_lower]. destruct (is_lower c); [|reflexivity].
  destruct (span_lower rest). reflexivity.
Qed.

Lemma re_match_matched (path : string) :
  matched_path path = true <-> exists b t, re_match path = Some (b, t).
Proof.
  unfold matched_path, re_match.
  destruct path as [|a rest]; [split; [discriminate|intros (b & t & H); discriminate]|].
  destruct (Ascii.eqb_spec a "/"%char) as [->|Hne].
  - destruct rest as [|c rest].
    + cbn. split; [discriminate|intros (b & t & H); discriminate].
    + pose proof (span_lower_head c rest) as Hh.
      destruct (span_lower (String c rest)) as [b tail]. cbn [fst] in Hh.
      destruct (is_lower c); subst b.
      * split; [intros _; eauto|reflexivity].
      * split; [discriminate|intros (b & t & H); discriminate].
  - split.
    + destruct a as [[] [] [] [] [] [] [] []]; try discriminate.
      contradiction Hne; reflexivity.
    + intros (b & t & H).
      destruct a as [[] [] [] [] [] [] [] []]; try discriminate.
      contradiction Hne; reflexivity.
Qed.

(** What does hold of [do_GET]: on a path the pattern matches it writes
    one of four responses. *)
Lemma do_GET_matched (E : Env) (path b : string) (t : option string)
    (p : Process) :
  re_match path = Some (b, t) ->
  do_GET E path p
  = if negb (String.eqb b "metrics") then (Ok (respond 404 EmptyString), p)
    else match t with
         | None | Some EmptyString => (Ok (respond 400 EmptyString), p)
         | Some target =>
             match collect_metrics E target p with
             | (Ok text, p') => (Ok (respond 200 text), p')
             | (Raise _, p') => (Ok (respond 500 EmptyString), p')
             end
         end.
Proof.
  intros Hm. unfold do_GET. rewrite Hm.
  destruct (String.eqb b "metrics"); [|reflexivity].
  destruct t as [[|c r]|]; reflexivity.
Qed.

(** C4 at the paths the pattern does not match: [re.match] returns [None],
    [p.group(1)] raises, and the handler ends without writing a status or
    a body; it does not answer 404.  Such paths are the bare slash and
    every path whose second character is not a lower-case letter. *)
Theorem do_GET_raises_on_unmatched_path (E : Env) (path : string)
    (p : Process) :
  matched_path path = false ->
  do_GET E path p = (Raise AttributeError, p).
Proof.
  intros H. unfold do_GET.
  destruct (re_match path) as [[b t]|] eqn:Hm; [|reflexivity].
  assert (matched_path path = true) by (apply re_match_matched; eauto).
  congruence.
Qed.

Lemma do_GET_raises_on_unmatched_path_witness :
  do_GET healthy_env "/" startup = (Raise AttributeError, startup)
  /\ do_GET healthy_env "/Metrics?target=idrac1" startup
     = (Raise AttributeError, startup).
Proof.
  split; apply do_GET_raises_on_unmatched_path; reflexivity.
Defined.

(** ** The host registry *)

Ltac run_m := cbv beta iota delta [bind gets ret raise modify lift].

Lemma authenticate_returns (E : Env) (tok : string) (st : St) :
  exists ok st', authenticate E tok st = (Ok ok, st').
Proof.
  unfold authenticate.
  destruct (RedfishAPI_get E "Chassis" _) as [[res|e] st'];
    [destruct (negb _)|]; eauto.
Qed.

Lemma authenticate_false (E : Env) (t : string) (i : info) (w : World) :
  probe_rejected E t i w = true ->
  exists st', authenticate E (info_token i)
                {| self := RedfishAPI_init t; world := w |} = (Ok false, st').
Proof.
  unfold probe_rejected, authenticate. rewrite get_unfold.
  destruct (answer E "Chassis" _) as [|code [doc|]]; eauto.
  intros H. apply andb_prop in H as [H1 H2].
  destruct (code =? 200); [discriminate|]. cbn.
  destruct (code =? 0); [discriminate|]. cbn. eauto.
Qed.

Lemma on_object_hosts {A} (r : nat) (m : M St A) (p : Process) :
  hosts (snd (on_object r m p)) = hosts p.
Proof.
  unfold on_object. destruct (heap p !! r); [|reflexivity].
  destruct (m _). reflexivity.
Qed.

Lemma keeps_bind {A B} (t : string) (m : M Process A) (k : A -> M Process B) :
  keeps t m -> (forall a, keeps t (k a)) -> keeps t (bind m k).
Proof.
  intros Hm Hk p. unfold bind. specialize (Hm p).
  destruct (m p) as [[a|e] p']; cbn [snd] in *; [|exact Hm].
  rewrite Hk. exact Hm.
Qed.

Lemma keeps_pure {A} (t : string) (r : result A) : keeps t (lift r).
Proof. intros p. reflexivity. Qed.

Lemma keeps_gets {A} (t : string) (f : Process -> A) : keeps t (gets f).
Proof. intros p. reflexivity. Qed.

Lemma keeps_set_entry (t t' : string) (i : info) :
  t' <> t -> keeps t (modify (set_entry t' i)).
Proof. intros Hne p. cbn. apply lookup_insert_ne. exact Hne. Qed.

Lemma keeps_alloc (t : string) (obj : RedfishAPI) : keeps t (alloc obj).
Proof. intros p. reflexivity. Qed.

Lemma keeps_on_object {A} (t : string) (r : nat) (m : M St A) :
  keeps t (on_object r m).
Proof. intros p. rewrite on_object_hosts. reflexivity. Qed.

Create HintDb keeps.
#[local] Hint Resolve keeps_gets keeps_set_entry keeps_alloc
  keeps_on_object : keeps.

Ltac keeps_tac :=
  repeat first
    [ apply keeps_bind; [|intros ?]
    | apply (keeps_pure _ (Ok tt))
    | apply (keeps_pure _ (Raise _))
    | solve [auto with keeps]
    | match goal with
      | |- keeps _ (match ?x with _ => _ end) => destruct x
      end ].

Lemma collect_metrics_other_entry (E : Env) (t t' : string) :
  t' <> t -> keeps t (collect_metrics E t').
Proof.
  intros Hne.
  unfold collect_metrics, seed_entry, open_session, run_session, ret, raise.
  keeps_tac.
Qed.

Lemma collect_metrics_rejects (E : Env) (t : string) (p : Process) :
  marked_invalid p t ->
  collect_metrics E t p = (Raise (RuntimeError "Invalid host"), p).
Proof.
  intros (i & r & Hi & Hh & Hv).
  unfold collect_metrics, seed_entry, open_session, run_session.
  run_m. rewrite Hi. run_m. rewrite Hi, Hh. run_m.
  rewrite Hi, Hv. reflexivity.
Qed.

Lemma seed_entry_seeds (t : string) (p : Process) (i : info) :
  seeded p t = Some i ->
  exists p', seed_entry t p = (Ok tt, p')
             /\ hosts p' !! t = Some i
             /\ heap p' = heap p /\ outside p' = outside p.
Proof.
  unfold seeded, seed_entry. run_m.
  destruct (hosts p !! t) as [j|] eqn:Hj.
  - intros [= ->]. exists p. auto.
  - intros ->. eexists. split; [reflexivity|]. cbn.
    rewrite lookup_insert_eq. auto.
Qed.

Lemma failed_probe_marks_invalid (E : Env) (t : string) (p : Process)
    (i : info) :
  seeded p t = Some i ->
  host i = None ->
  probe_rejected E t i (outside p) = true ->
  fst (collect_metrics E t p) = Raise (RuntimeError "Invalid host")
  /\ marked_invalid (snd (collect_metrics E t p)) t.
Proof.
  intros Hs Hh Hp.
  destruct (seed_entry_seeds t p i Hs) as (p1 & Hseed & Hi & Hheap & Hout).
  destruct (authenticate_false E t i (outside p) Hp) as (st' & Hauth).
  unfold collect_metrics, open_session, run_session.
  run_m. rewrite Hseed. run_m. rewrite Hi, Hh. run_m.
  unfold alloc, on_object. cbn [heap outside hosts].
  rewrite lookup_app_r, Nat.sub_diag by reflexivity. cbn [lookup list_lookup].
  rewrite Hout, Hauth. unfold set_entry. cbn [hosts heap outside].
  rewrite lookup_insert_eq. cbn [valid fst snd].
  split; [reflexivity|].
  eexists _, _. cbn [hosts]. rewrite lookup_insert_eq. eauto.
Qed.

Lemma marked_invalid_preserved (E : Env) (t t' : string) (p : Process) :
  marked_invalid p t -> marked_invalid (snd (collect_metrics E t' p)) t.
Proof.
  intros H. destruct (decide (t' = t)) as [->|Hne].
  - rewrite (collect_metrics_rejects E t p H). exact H.
  - destruct H as (i & r & Hi & Hrest). exists i, r.
    rewrite (collect_metrics_other_entry E t t' Hne p). auto.
Qed.

Lemma serve_rejects (E : Env) (t : string) (targets : list string) :
  forall p, marked_invalid p t ->
    Forall (rejected_quietly t) (fst (serve E targets p))
    /\ marked_invalid (snd (serve E targets p)) t.
Proof.
  induction targets as [|t' rest IH]; intros p H.
  - split; [constructor|exact H].
  - cbn [serve].
    pose proof (marked_invalid_preserved E t t' p H) as H'.
    assert (Hrej : t' = t ->
              collect_metrics E t' p
              = (Raise (RuntimeError "Invalid host"), p)).
    { intros ->. apply collect_metrics_rejects. exact H. }
    destruct (collect_metrics E t' p) as [res p'].
    destruct (IH p' H') as [IH1 IH2].
    destruct (serve E rest p') as [evs p''].
    split; [|exact IH2].
    constructor; [|exact IH1].
    intros Heq. cbn in Heq. cbn [ev_outcome ev_requests].
    specialize (Hrej Heq). injection Hrej as -> ->.
    split; [reflexivity|]. apply drop_all.
Qed.

(** C3: a first request for [t] whose probe is rejected fails with
    [RuntimeError('Invalid host')] and leaves the session marked invalid.
    From then on, in every run of further requests for any targets, each
    request for [t] raises that same error and issues no network request,
    and the mark stays.  Such a request leaves the whole process state
    as it was, so no collector ran: the first thing a pass does is to reset
    the sink, and the first thing a collector does is a request. *)
Theorem failed_probe_rejects_forever (E : Env) (t : string) (p0 : Process)
    (i : info) (targets : list string) :
  seeded p0 t = Some i ->
  host i = None ->
  probe_rejected E t i (outside p0) = true ->
  let p1 := snd (collect_metrics E t p0) in
  fst (collect_metrics E t p0) = Raise (RuntimeError "Invalid host")
  /\ marked_invalid p1 t
  /\ Forall (rejected_quietly t) (fst (serve E targets p1))
  /\ marked_invalid (snd (serve E targets p1)) t
  /\ (forall p, marked_invalid p t ->
        collect_metrics E t p = (Raise (RuntimeError "Invalid host"), p)).
Proof.
  intros Hs Hh Hp p1.
  destruct (failed_probe_marks_invalid E t p0 i Hs Hh Hp) as [H1 H2].
  destruct (serve_rejects E t targets p1 H2) as [H3 H4].
  repeat split; try assumption.
  intros p. apply collect_metrics_rejects.
Qed.

Lemma failed_probe_rejects_forever_witness :
  Forall (rejected_quietly "idrac1")
    (fst (serve unauthorized_env ["idrac1"; "idrac2"; "idrac1"]
            (snd (collect_metrics unauthorized_env "idrac1" startup)))).
Proof.
  refine (proj1 (proj2 (proj2
            (failed_probe_rejects_forever unauthorized_env "idrac1" startup
               sample_credentials ["idrac1"; "idrac2"; "idrac1"] _ _ _)))).
  - vm_compute. reflexivity.
  - reflexivity.
  - vm_compute. reflexivity.
Defined.

(** ** The event log collector *)

Lemma lstrip_spec (set s : string) :
  exists a, s = a +:+ lstrip set s
            /\ all_in set a = true /\ head_in set (lstrip set s) = false.
Proof.
  induction s as [|c r (a & Ha & Hall & Hhead)].
  - exists EmptyString. auto.
  - cbn [lstrip]. destruct (mem_char c set) eqn:Hc.
    + exists (String c a). rewrite append_cons, <- Ha. cbn [all_in].
      rewrite Hc, Hall. auto.
    + exists EmptyString. cbn [head_in]. auto.
Qed.

Lemma rstrip_spec (set s : string) :
  exists b, s = rstrip set s +:+ b
            /\ all_in set b = true /\ last_in set (rstrip set s) = false.
Proof.
  induction s as [|c r (b & Hb & Hall & Hlast)].
  - exists EmptyString. auto.
  - cbn [rstrip]. destruct (rstrip set r) as [|d r'] eqn:Hr.
    + rewrite append_empty_l in Hb. subst b.
      destruct (mem_char c set) eqn:Hc.
      * exists (String c r). cbn [all_in]. rewrite Hc, Hall. auto.
      * exists r. cbn [last_in]. auto.
    + exists b. rewrite append_cons, <- Hb. auto.
Qed.

Lemma rstrip_head (set s : string) :
  head_in set s = false -> head_in set (rstrip set s) = false.
Proof.
  destruct s as [|c r]; [reflexivity|]. cbn [head_in rstrip]. intros Hc.
  destruct (rstrip set r); [rewrite Hc|]; exact Hc.
Qed.

(** [strip] takes away a run of characters of the set at each end, and
    what is left neither starts nor ends with one *)
Lemma strip_spec (set s : string) :
  exists a b, s = a +:+ strip set s +:+ b
              /\ all_in set a = true /\ all_in set b = true
              /\ head_in set (strip set s) = false
              /\ last_in set (strip set s) = false.
Proof.
  destruct (lstrip_spec set s) as (a & Ha & Halla & Hhead).
  destruct (rstrip_spec set (lstrip set s)) as (b & Hb & Hallb & Hlast).
  exists a, b. unfold strip. rewrite <- Hb, <- Ha.
  repeat split; auto using rstrip_head.
Qed.

(** [int(x)] is the integer part of [x]: the quotient, rounded toward
    zero, of the signed mantissa by the power of two of the exponent *)
Lemma int_of_float_truncates (x : float) (s : bool) (m : positive) (e : Z) :
  Prim2SF x = S754_finite s m e ->
  int_of_float x
  = Ok (if 0 <=? e then (if s then - Z.pos m else Z.pos m) * 2 ^ e
        else Z.quot (if s then - Z.pos m else Z.pos m) (2 ^ (- e))).
Proof.
  intros H. unfold int_of_float. rewrite H.
  destruct (Z.leb_spec 0 e) as [He|He].
  - rewrite Z.shiftl_mul_pow2 by exact He. destruct s; f_equal; lia.
  - rewrite Z.shiftr_div_pow2 by lia.
    assert (0 < 2 ^ (- e)) by (apply Z.pow_pos_nonneg; lia).
    destruct s; f_equal.
    + rewrite Z.quot_opp_l by lia. rewrite Z.quot_div_nonneg by lia.
      reflexivity.
    + rewrite Z.quot_div_nonneg by lia. reflexivity.
Qed.

(** C5, as the code has it: for an entry with its fields, the record has
    the age [int(now - created)], the current time read once for the
    entry, and the message label is the message with the periods at both
    of its ends taken away, the leading ones as well as the trailing. *)
Theorem sel_entry_record_value_and_labels (E : Env) (entry id comp sev
    created : json) (m : string) (tm : list Z) (t : float) (v : Z) (st : St) :
  subscript entry "Id" = Ok id ->
  subscript entry "Message" = Ok (JStr m) ->
  subscript entry "SensorType" = Ok comp ->
  subscript entry "Severity" = Ok sev ->
  subscript entry "Created" = Ok created ->
  isoparse_timetuple E created = Ok tm ->
  mktime E tm = Ok t ->
  int_of_float (wall_clock E (clock_reads (world st)) - t) = Ok v ->
  let args := [("id", id); ("message", JStr (strip "." m));
               ("component", comp); ("severity", sev)] in
  sel_entry_record E entry st = (Ok (args, JInt v), tick_clock st)
  /\ collect_sel_entry E entry st
     = metrics_add E "sel_entry" args (JInt v) (tick_clock st)
  /\ exists a b, m = a +:+ strip "." m +:+ b
                 /\ all_in "." a = true /\ all_in "." b = true
                 /\ head_in "." (strip "." m) = false
                 /\ last_in "." (strip "." m) = false.
Proof.
  intros Hid Hm Hc Hs Hcr Hiso Hmk Hint args.
  assert (Hrec : sel_entry_record E entry st = (Ok (args, JInt v), tick_clock st)).
  { unfold sel_entry_record, time_time. run_m.
    rewrite Hid, Hm. cbn [method_strip]. rewrite Hc, Hs, Hcr, Hiso, Hmk, Hint.
    reflexivity. }
  split; [exact Hrec|]. split; [|apply strip_spec].
  unfold collect_sel_entry, bind. rewrite Hrec. reflexivity.
Qed.

Lemma sel_entry_record_value_and_labels_witness :
  sel_entry_record healthy_env (sample_log_entry "The battery is low.")
    sample_st
  = (Ok ([("id", JStr "7"); ("message", JStr "The battery is low");
          ("component", JStr "Battery"); ("severity", JStr "Warning")],
         JInt 3600),
     tick_clock sample_st).
Proof.
  refine (proj1 (sel_entry_record_value_and_labels healthy_env
            (sample_log_entry "The battery is low.")
            (JStr "7") (JStr "Battery") (JStr "Warning")
            (JStr "2023-11-14T22:13:20") "The battery is low."
            sample_timetuple (float_of_Z 1700000000) 3600 sample_st
            _ _ _ _ _ _ _ _)); reflexivity.
Defined.

(** C5 as the specification words it fails: a message that starts with a
    period loses it. *)
Lemma leading_period_is_stripped :
  fst (sel_entry_record healthy_env (sample_log_entry ".NET runtime stopped.")
         sample_st)
  = Ok ([("id", JStr "7"); ("message", JStr "NET runtime stopped");
         ("component", JStr "Battery"); ("severity", JStr "Warning")],
        JInt 3600)
  /\ rstrip "." ".NET runtime stopped." = ".NET runtime stopped"
  /\ ~ message_label_rstripped healthy_env
         (sample_log_entry ".NET runtime stopped.") sample_st.
Proof.
  split; [reflexivity|]. split; [reflexivity|].
  intros H. specialize (H _ _ _ _ eq_refl eq_refl).
  vm_compute in H. discriminate H.
Qed.

(** ** The sensors collector *)

Lemma eq_str_spec (v : json) (s : string) : eq_str v s = true <-> v = JStr s.
Proof.
  destruct v; cbn; try (split; [discriminate|intros [=]]).
  rewrite String.eqb_eq. split; [intros ->; reflexivity|intros [= ->]; reflexivity].
Qed.

Lemma eq_str_false (v : json) (s : string) : v <> JStr s -> eq_str v s = false.
Proof.
  intros H. destruct (eq_str v s) eqn:He; [|reflexivity].
  apply eq_str_spec in He. contradiction.
Qed.

(** the double nearest to 42.3: it is 5953195757430374 / 2^47, within half
    a unit in the last place (2^-48) of 423/10 *)
Lemma reading_423_is_42_3 :
  Prim2SF (float_of_Z 423 / float_of_Z 10)
  = S754_finite false 5953195757430374 (-47)
  /\ Z.abs (10 * 5953195757430374 - 423 * 2 ^ 47) * 2 <= 10.
Proof. split; [reflexivity|]. vm_compute. discriminate. Qed.

(** For an entry with its label fields, the loop body of
    [collect_sensors] adds the record [sensors_temperature] with the value
    [float(reading) / 10.0] when the type is Temperature, the record
    [sensors_tachometer] with the value [int(reading)] when the type is
    Tachometer, and nothing for any other type.  The reading 423 gives the
    double nearest to 42.3. *)
Theorem sensor_entry_emits (E : Env) (entry name id state type : json)
    (st : St) :
  subscript entry "ElementName" = Ok name ->
  subscript entry "DeviceID" = Ok id ->
  subscript entry "EnabledState" = Ok state ->
  subscript entry "SensorType" = Ok type ->
  let args := [("name", name); ("id", id);
               ("enabled", JInt (if eq_str state "Enabled" then 1 else 0))] in
  (type = JStr "Temperature" ->
     forall raw x,
       subscript entry "CurrentReading" = Ok raw ->
       py_float E raw = Ok x ->
       collect_sensors_entry E entry st
       = metrics_add E "sensors_temperature" args
           (JFloat (x / float_of_Z 10)) st)
  /\ (type = JStr "Tachometer" ->
        forall raw n,
          subscript entry "CurrentReading" = Ok raw ->
          py_int E raw = Ok n ->
          collect_sensors_entry E entry st
          = metrics_add E "sensors_tachometer" args (JInt n) st)
  /\ (type <> JStr "Temperature" -> type <> JStr "Tachometer" ->
        collect_sensors_entry E entry st = (Ok tt, st))
  /\ py_float E (JInt 423) = Ok (float_of_Z 423)
  /\ Prim2SF (float_of_Z 423 / float_of_Z 10)
     = S754_finite false 5953195757430374 (-47).
Proof.
  intros Hn Hi Hs Ht args.
  unfold collect_sensors_entry. run_m. rewrite Hn, Hi, Hs, Ht.
  split; [|split; [|split; [|split; [reflexivity|apply reading_423_is_42_3]]]].
  - intros -> raw x Hr Hx. cbn [eq_str String.eqb Ascii.eqb Bool.eqb andb].
    rewrite Hr, Hx. reflexivity.
  - intros -> raw n Hr Hx. cbn [eq_str String.eqb Ascii.eqb Bool.eqb andb].
    rewrite Hr, Hx. reflexivity.
  - intros H1 H2. rewrite (eq_str_false _ _ H1), (eq_str_false _ _ H2).
    reflexivity.
Qed.

Lemma sensor_entry_emits_witness :
  collect_sensors_entry healthy_env sample_temperature sample_st
  = metrics_add healthy_env "sensors_temperature"
      [("name", JStr "Inlet Temp"); ("id", JStr "T1"); ("enabled", JInt 1)]
      (JFloat (float_of_Z 423 / float_of_Z 10)) sample_st
  /\ collect_sensors_entry healthy_env sample_fan sample_st
     = metrics_add healthy_env "sensors_tachometer"
         [("name", JStr "Fan1"); ("id", JStr "F1"); ("enabled", JInt 0)]
         (JInt 7200) sample_st
  /\ collect_sensors_entry healthy_env sample_voltage sample_st
     = (Ok tt, sample_st).
Proof.
  split; [|split].
  - refine (proj1 (sensor_entry_emits healthy_env sample_temperature
              (JStr "Inlet Temp") (JStr "T1") (JStr "Enabled")
              (JStr "Temperature") sample_st _ _ _ _)
              _ (JInt 423) (float_of_Z 423) _ _); reflexivity.
  - refine (proj1 (proj2 (sensor_entry_emits healthy_env sample_fan
              (JStr "Fan1") (JStr "F1") (JStr "Disabled")
              (JStr "Tachometer") sample_st _ _ _ _))
              _ (JInt 7200) 7200 _ _); reflexivity.
  - refine (proj1 (proj2 (proj2 (sensor_entry_emits healthy_env
              sample_voltage (JStr "PS1 Voltage") (JStr "V1")
              (JStr "Enabled") (JStr "Voltage") sample_st _ _ _ _)))
              _ _); try reflexivity; discriminate.
Defined.

Lemma collect_sensors_loop (E : Env) (st : St) (doc : json)
    (entries : list json) :
  answer E (resource Sensors) st = Response 200 (Some doc) ->
  method_get doc "Members" = Ok (JArr entries) ->
  collect_sensors E st
  = for_each entries (collect_sensors_entry E) (requested (resource Sensors) st).
Proof.
  intros Ha Hm. unfold collect_sensors, bind.
  cbn [resource] in Ha. rewrite get_unfold, Ha. cbn.
  unfold lift. rewrite Hm. reflexivity.
Qed.

Lemma collect_sel_loop (E : Env) (st : St) (doc : json)
    (entries : list json) :
  answer E (resource EventLog) st = Response 200 (Some doc) ->
  method_get doc "Members" = Ok (JArr entries) ->
  collect_sel E st
  = for_each entries (collect_sel_entry E) (requested (resource EventLog) st).
Proof.
  intros Ha Hm. unfold collect_sel, bind.
  cbn [resource] in Ha. rewrite get_unfold, Ha. cbn.
  unfold lift. rewrite Hm. reflexivity.
Qed.






(** ** The basics collector *)

Lemma metrics_set_metrics (m : list string) (st : St) :
  metrics (self (set_metrics m st)) = m.
Proof. reflexivity. Qed.

(** the conversion factor is 2^40 / 10^9, both exact as doubles *)
Lemma memory_factor :
  Prim2SF (float_of_Z (1024 ^ 4)) = S754_finite false (2 ^ 52) (-12)
  /\ Prim2SF (float_of_Z (10 ^ 9)) = S754_finite false 8388608000000000 (-23)
  /\ 2 ^ 52 = 1024 ^ 4 * 2 ^ 12
  /\ 8388608000000000 = 10 ^ 9 * 2 ^ 23.
Proof. repeat split. Qed.

(** C6: for a system resource with the fields read before it, whose
    [TotalSystemMemoryGiB] converts to the float [gib], the fourth record
    that [collect_basics] adds is [memory_size] with the value
    [int(gib * 1024**4 / 10**9)], in floating point and truncated; what
    the later fields do does not change it. *)
Theorem memory_size_value (E : Env) (st : St) (doc power status health led
    summary text : json) (gib : float) (v : Z) :
  answer E (resource Basics) st = Response 200 (Some doc) ->
  subscript doc "PowerState" = Ok power ->
  subscript doc "Status" = Ok status ->
  subscript status "Health" = Ok health ->
  subscript doc "IndicatorLED" = Ok led ->
  subscript doc "MemorySummary" = Ok summary ->
  subscript summary "TotalSystemMemoryGiB" = Ok text ->
  py_float E text = Ok gib ->
  int_of_float (gib * float_of_Z (1024 ^ 4) / float_of_Z (10 ^ 9)) = Ok v ->
  exists l1 l2 l3 rest,
    metrics (self (snd (collect_basics E st)))
    = (metrics (self st)
       ++ [l1; l2; l3; "idrac_memory_size " +:+ pretty v] ++ rest)%list.
Proof.
  intros Ha Hp Hs Hh Hl Hm Ht Hf Hi.
  unfold collect_basics. run_m. cbn [resource] in Ha.
  rewrite get_unfold, Ha. cbn [rv_error rv_json Z.eqb Pos.eqb truthy_code].
  rewrite Hp, !metrics_add_eq. run_m.
  rewrite Hs, Hh, !metrics_add_eq. run_m.
  rewrite Hl, !metrics_add_eq. run_m.
  rewrite Hm, Ht, Hf, Hi, !metrics_add_eq. run_m.
  do 3 eexists.
  destruct (subscript doc "ProcessorSummary") as [ps|e];
    [|exists []; cbn [snd]; rewrite !metrics_set_metrics, <- !app_assoc;
      reflexivity].
  destruct (subscript ps "Model") as [model|e];
    [|exists []; cbn [snd]; rewrite !metrics_set_metrics, <- !app_assoc;
      reflexivity].
  destruct (subscript ps "Count") as [count|e];
    [|exists []; cbn [snd]; rewrite !metrics_set_metrics, <- !app_assoc;
      reflexivity].
  rewrite !metrics_add_eq. run_m.
  destruct (subscript doc "BiosVersion") as [bios|e].
  - rewrite !metrics_add_eq. eexists [_; _]. cbn [snd].
    rewrite !metrics_set_metrics, <- !app_assoc. reflexivity.
  - eexists [_]. cbn [snd].
    rewrite !metrics_set_metrics, <- !app_assoc. reflexivity.
Qed.

(** 64 GiB are reported as 70368, not as the 68719476736 bytes they are *)
Lemma memory_size_value_witness :
  (exists l1 l2 l3 rest,
     metrics (self (snd (collect_basics healthy_env sample_st)))
     = ([] ++ [l1; l2; l3; "idrac_memory_size 70368"] ++ rest)%list)
  /\ 70368 <> 64 * 1024 ^ 3.
Proof.
  split; [|discriminate].
  refine (memory_size_value healthy_env sample_st sample_system
            (JStr "On") (JObj [("Health", JStr "OK")]) (JStr "OK")
            (JStr "Off") (JObj [("TotalSystemMemoryGiB", JFloat 64)])
            (JFloat 64) 64%float 70368 _ _ _ _ _ _ _ _ _); reflexivity.
Defined.

(** when the scaled value is not finite, [int()] raises and the record is
    not added: the three records before it are all the sink holds *)
Lemma memory_size_overflow_raises :
  fst (collect_basics huge_memory_env sample_st) = Raise OverflowError
  /\ length (metrics (self (snd (collect_basics huge_memory_env sample_st))))
     = 3%nat.
Proof. split; reflexivity. Qed.

(** ** Session references stay valid *)

Lemma on_object_heap_length {A} (r : nat) (m : M St A) (p : Process) :
  length (heap (snd (on_object r m p))) = length (heap p).
Proof.
  unfold on_object. destruct (heap p !! r); [|reflexivity].
  destruct (m _). cbn. apply length_insert.
Qed.

Lemma seed_entry_refs_in_range (t : string) (p : Process) :
  refs_in_range p -> refs_in_range (snd (seed_entry t p)).
Proof.
  intros Hwf. unfold seed_entry. run_m.
  destruct (hosts p !! t) as [i|] eqn:Hi; [exact Hwf|].
  destruct (hosts p !! "default") as [d|] eqn:Hd; [|exact Hwf].
  intros k j r. cbn. destruct (decide (k = t)) as [->|Hne].
  - rewrite lookup_insert_eq. intros [= <-]. apply (Hwf "default" d r Hd).
  - rewrite lookup_insert_ne by congruence. apply Hwf.
Qed.

Lemma open_session_refs_in_range (E : Env) (t : string) (i : info)
    (p : Process) :
  refs_in_range p -> refs_in_range (snd (open_session E t i p)).
Proof.
  intros Hwf. unfold open_session. destruct (host i); [exact Hwf|].
  run_m. unfold alloc.
  pose proof (on_object_heap_length (length (heap p))
                (authenticate E (info_token i))
                {| hosts := hosts p; heap := heap p ++ [RedfishAPI_init t];
                   outside := outside p |}) as Hlen.
  pose proof (on_object_hosts (length (heap p))
                (authenticate E (info_token i))
                {| hosts := hosts p; heap := heap p ++ [RedfishAPI_init t];
                   outside := outside p |}) as Hhosts.
  destruct (on_object _ _ _) as [[ok|e] p']; cbn [snd heap hosts] in *;
    rewrite length_app in Hlen; cbn [length] in Hlen.
  - intros k j r. cbn. destruct (decide (k = t)) as [->|Hne].
    + rewrite lookup_insert_eq. intros [= <-] [= <-]. lia.
    + rewrite lookup_insert_ne, Hhosts by congruence. intros Hk Hr.
      specialize (Hwf k j r Hk Hr). lia.
  - intros k j r. rewrite Hhosts. intros Hk Hr.
    specialize (Hwf k j r Hk Hr). lia.
Qed.

Lemma run_session_refs_in_range (E : Env) (i : info) (p : Process) :
  refs_in_range p -> refs_in_range (snd (run_session E i p)).
Proof.
  intros Hwf. unfold run_session.
  destruct (valid i) as [[]|]; try exact Hwf.
  destruct (host i) as [r|]; [|exact Hwf].
  intros k j r'. rewrite on_object_hosts, on_object_heap_length. apply Hwf.
Qed.

(** from startup on, no entry of the registry holds a reference without
    its object *)
Lemma collect_metrics_refs_in_range (E : Env) (t : string) (p : Process) :
  refs_in_range p -> refs_in_range (snd (collect_metrics E t p)).
Proof.
  intros Hwf. unfold collect_metrics. run_m.
  pose proof (seed_entry_refs_in_range t p Hwf) as H1.
  destruct (seed_entry t p) as [[[]|e] p1]; cbn [snd] in H1; [|exact H1].
  destruct (hosts p1 !! t) as [i|]; [|exact H1].
  pose proof (open_session_refs_in_range E t i p1 H1) as H2.
  destruct (open_session E t i p1) as [[[]|e] p2]; cbn [snd] in H2;
    [|exact H2].
  destruct (hosts p2 !! t) as [j|]; [|exact H2].
  apply run_session_refs_in_range. exact H2.
Qed.

Lemma startup_refs_in_range : refs_in_range startup.
Proof.
  intros k i r Hk Hr. unfold startup in Hk. cbn [hosts] in Hk.
  apply lookup_singleton_Some in Hk as [_ <-]. discriminate Hr.
Qed.

Lemma serve_refs_in_range (E : Env) (targets : list string) :
  forall p, refs_in_range p -> refs_in_range (snd (serve E targets p)).
Proof.
  induction targets as [|t rest IH]; intros p Hwf; [exact Hwf|].
  cbn [serve].
  pose proof (collect_metrics_refs_in_range E t p Hwf) as H1.
  destruct (collect_metrics E t p) as [res p1]. cbn [snd] in H1.
  specialize (IH p1 H1). destruct (serve E rest p1) as [evs p2]. exact IH.
Qed.

(** * Further properties of the code *)

Open Scope list_scope.

(** ** Collectors: one request each, an append-only sink *)

Lemma same_session_refl (st : St) : same_session st st.
Proof. repeat split. Qed.

Lemma same_session_trans (a b c : St) :
  same_session a b -> same_session b c -> same_session a c.
Proof.
  intros (H1 & H2 & H3 & H4) (K1 & K2 & K3 & K4).
  repeat split; congruence.
Qed.

Lemma offline_step_refl (st : St) : offline_step st st.
Proof. split; [apply same_session_refl|]. split; reflexivity. Qed.

Lemma offline_step_trans (a b c : St) :
  offline_step a b -> offline_step b c -> offline_step a c.
Proof.
  intros (H1 & H2 & H3) (K1 & K2 & K3). split; [|split].
  - exact (same_session_trans _ _ _ H1 K1).
  - congruence.
  - etrans; eassumption.
Qed.

Lemma quiet_bind {A B} (m : M St A) (k : A -> M St B) :
  quiet m -> (forall a, quiet (k a)) -> quiet (bind m k).
Proof.
  intros Hm Hk st. unfold bind. specialize (Hm st).
  destruct (m st) as [[a|e] st']; cbn [snd] in *; [|exact Hm].
  eapply offline_step_trans; [exact Hm|apply Hk].
Qed.

Lemma quiet_lift {A} (r : result A) : quiet (lift r).
Proof. intros st. apply offline_step_refl. Qed.

Lemma quiet_ret {A} (a : A) : quiet (ret (S := St) a).
Proof. intros st. apply offline_step_refl. Qed.

Lemma quiet_time_time (E : Env) : quiet (time_time E).
Proof. intros st. split; [repeat split|]. split; reflexivity. Qed.

Lemma quiet_metrics_add (E : Env) (name : string)
    (args : list (string * json)) (value : json) :
  quiet (metrics_add E name args value).
Proof.
  intros st. rewrite metrics_add_eq. cbn [snd].
  split; [repeat split|]. split; [reflexivity|].
  cbn. apply prefix_app_r. reflexivity.
Qed.

Lemma quiet_for_each {A} (l : list A) (body : A -> M St unit) :
  (forall x, quiet (body x)) -> quiet (for_each l body).
Proof.
  intros Hb. induction l as [|x l IH]; cbn [for_each].
  - apply quiet_ret.
  - apply quiet_bind; [apply Hb|intros _; exact IH].
Qed.

Create HintDb quiet.
#[local] Hint Resolve quiet_lift quiet_ret quiet_time_time quiet_metrics_add
  : quiet.

Ltac quiet_tac :=
  repeat first
    [ apply quiet_bind; [|intros ?]
    | solve [auto with quiet]
    | match goal with
      | |- quiet (if ?b then _ else _) => destruct b
      | |- quiet (match ?x with _ => _ end) => destruct x
      end ].

Lemma quiet_sel_entry (E : Env) (entry : json) :
  quiet (collect_sel_entry E entry).
Proof. unfold collect_sel_entry, sel_entry_record. quiet_tac. Qed.

Lemma quiet_sensors_entry (E : Env) (entry : json) :
  quiet (collect_sensors_entry E entry).
Proof. unfold collect_sensors_entry. quiet_tac. Qed.

Lemma requested_step (url : string) (st : St) :
  same_session st (requested url st)
  /\ net_log (world (requested url st))
     = net_log (world st) ++ [get_request (self st) url]
  /\ metrics (self (requested url st)) = metrics (self st).
Proof. repeat split. Qed.

(** a [get] followed by a quiet continuation *)
Lemma get_then_quiet {A} (E : Env) (url : string) (k : retval -> M St A)
    (st : St) :
  (forall data, quiet (k data)) ->
  let st' := snd (bind (RedfishAPI_get E url) k st) in
  same_session st st'
  /\ net_log (world st') = net_log (world st) ++ [get_request (self st) url]
  /\ metrics (self st) `prefix_of` metrics (self st').
Proof.
  intros Hk st'. subst st'. unfold bind. rewrite get_unfold.
  destruct (requested_step url st) as (Hs & Hn & Hm).
  destruct (answer E url st) as [|code [doc|]]; cbn [snd];
    try (split; [exact Hs|split; [exact Hn|rewrite Hm; reflexivity]]).
  destruct (Hk {| rv_json := doc;
                  rv_error := if code =? 200 then None else Some code |}
              (requested url st)) as (Ks & Kn & Km).
  split; [exact (same_session_trans _ _ _ Hs Ks)|].
  split; [congruence|]. rewrite <- Hm. exact Km.
Qed.

Lemma collector_step (E : Env) (c : collector) (st : St) :
  let st' := snd (run_collector E c st) in
  same_session st st'
  /\ net_log (world st')
     = net_log (world st) ++ [get_request (self st) (resource c)]
  /\ metrics (self st) `prefix_of` metrics (self st').
Proof.
  destruct c; cbn [run_collector resource];
    unfold collect_basics, collect_sensors, collect_sel;
    apply get_then_quiet; intros data; quiet_tac;
    apply quiet_for_each; intros x;
    auto using quiet_sel_entry, quiet_sensors_entry.
Qed.

(** X1: whatever the controller answers and whether the collector returns
    or raises, a collector issues exactly one request, the one for its own
    resource with the session's token, leaves server, URL root and token
    as they were, and only adds records: the records the sink held are
    still there, in place. *)
Theorem collector_one_request_append_only (E : Env) (c : collector)
    (st : St) :
  let st' := snd (run_collector E c st) in
  same_session st st'
  /\ net_log (world st')
     = net_log (world st) ++ [get_request (self st) (resource c)]
  /\ metrics (self st) `prefix_of` metrics (self st').
Proof. exact (collector_step E c st). Qed.

Lemma get_request_same_session (st st' : St) (url : string) :
  same_session st st' ->
  get_request (self st') url = get_request (self st) url.
Proof.
  intros (_ & Hb & Hc & Ht). unfold get_request. rewrite Hb, Hc, Ht.
  reflexivity.
Qed.

Lemma pass_requests_sent (E : Env) (st : St) :
  let st' := snd (RedfishAPI_collect_metrics E st) in
  exists n,
    (1 <= n <= 3)%nat
    /\ net_log (world st')
       = net_log (world st) ++ take n (pass_requests (self st))
    /\ (forall text, fst (RedfishAPI_collect_metrics E st) = Ok text ->
          n = 3%nat)
    /\ same_session st st'.
Proof.
  cbn zeta. rewrite pass_unfold.
  assert (H0 : same_session st (set_metrics [] st)) by (repeat split).
  destruct (collector_step E Basics (set_metrics [] st)) as (S1 & N1 & _).
  rewrite (get_request_same_session _ _ _ H0) in N1.
  pose proof (same_session_trans _ _ _ H0 S1) as T1.
  destruct (run_collector E Basics _) as [[[]|e] s1]; cbn [snd fst] in *.
  2:{ exists 1%nat. split; [lia|]. split; [exact N1|].
      split; [discriminate|exact T1]. }
  destruct (collector_step E Sensors s1) as (S2 & N2 & _).
  rewrite (get_request_same_session _ _ _ T1), N1, <- app_assoc in N2.
  pose proof (same_session_trans _ _ _ T1 S2) as T2.
  destruct (run_collector E Sensors _) as [[[]|e] s2]; cbn [snd fst] in *.
  2:{ exists 2%nat. split; [lia|]. split; [exact N2|].
      split; [discriminate|exact T2]. }
  destruct (collector_step E EventLog s2) as (S3 & N3 & _).
  rewrite (get_request_same_session _ _ _ T2), N2, <- app_assoc in N3.
  pose proof (same_session_trans _ _ _ T2 S3) as T3.
  exists 3%nat. split; [lia|].
  destruct (run_collector E EventLog _) as [[[]|e] s3]; cbn [snd fst] in *;
    (split; [exact N3|split; [|exact T3]]); [reflexivity|discriminate].
Qed.

(** X2: a pass issues the requests for the system resource, the sensor
    collection and the event log in that order and stops at the first
    collector that raises: between one and three requests, all three when
    the pass returns, each built from the session as it was before the
    pass. *)
Theorem pass_issues_requests_in_order (E : Env) (st : St) :
  let st' := snd (RedfishAPI_collect_metrics E st) in
  exists n,
    (1 <= n <= 3)%nat
    /\ net_log (world st')
       = net_log (world st) ++ take n (pass_requests (self st))
    /\ (forall text, fst (RedfishAPI_collect_metrics E st) = Ok text ->
          n = 3%nat)
    /\ same_session st st'.
Proof. exact (pass_requests_sent E st). Qed.

(** ** Records per entry *)

Ltac split_results :=
  repeat match goal with
    | |- context [match ?x with Ok _ => _ | Raise _ => _ end] =>
        destruct x; try discriminate
    end.

Lemma sel_entry_adds_one (E : Env) (entry : json) (st st' : St) :
  collect_sel_entry E entry st = (Ok tt, st') ->
  length (metrics (self st')) = S (length (metrics (self st)))
  /\ clock_reads (world st') = S (clock_reads (world st)).
Proof.
  unfold collect_sel_entry, sel_entry_record, time_time. run_m.
  split_results. cbn [fst snd]. rewrite metrics_add_eq.
  intros [= <-]. cbn. rewrite length_app. cbn. split; lia.
Qed.

Lemma sel_loop_adds_each (E : Env) (entries : list json) :
  forall st st',
    for_each entries (collect_sel_entry E) st = (Ok tt, st') ->
    length (metrics (self st'))
    = (length (metrics (self st)) + length entries)%nat
    /\ clock_reads (world st')
       = (clock_reads (world st) + length entries)%nat.
Proof.
  induction entries as [|e l IH]; intros st st'; cbn [for_each].
  - intros [= <-]. cbn. split; lia.
  - unfold bind.
    destruct (collect_sel_entry E e st) as [[[]|x] s1] eqn:He;
      [|discriminate].
    intros Hl. apply sel_entry_adds_one in He as [H1 H2].
    apply IH in Hl as [H3 H4]. cbn [length]. split; lia.
Qed.

(** X3: when the event log collector returns on a log it could read, it
    added one record for each entry of [Members], none left out, and read
    the clock once for each entry. *)
Theorem collect_sel_one_record_per_entry (E : Env) (st st' : St)
    (doc members : json) (entries : list json) :
  answer E (resource EventLog) st = Response 200 (Some doc) ->
  method_get doc "Members" = Ok members ->
  py_iter members = Ok entries ->
  collect_sel E st = (Ok tt, st') ->
  length (metrics (self st'))
  = (length (metrics (self st)) + length entries)%nat
  /\ clock_reads (world st')
     = (clock_reads (world st) + length entries)%nat.
Proof.
  intros Ha Hm Hi. unfold collect_sel, bind. cbn [resource] in Ha.
  rewrite get_unfold, Ha. cbn [rv_error rv_json Z.eqb Pos.eqb truthy_code].
  unfold lift. rewrite Hm, Hi. intros Hl.
  apply sel_loop_adds_each in Hl. exact Hl.
Qed.

Lemma collect_sel_one_record_per_entry_witness :
  length (metrics (self (snd (collect_sel healthy_env sample_st)))) = 1%nat
  /\ clock_reads (world (snd (collect_sel healthy_env sample_st))) = 1%nat.
Proof.
  refine (collect_sel_one_record_per_entry healthy_env sample_st _
            sample_sel (JArr [sample_log_entry "The battery is low."])
            [sample_log_entry "The battery is low."] _ _ _ _);
    reflexivity.
Defined.

Lemma sensors_entry_adds (E : Env) (entry : json) (st st' : St) :
  collect_sensors_entry E entry st = (Ok tt, st') ->
  length (metrics (self st'))
  = (length (metrics (self st)) + if emitting entry then 1 else 0)%nat.
Proof.
  unfold collect_sensors_entry, emitting. run_m.
  destruct (subscript entry "ElementName"); [|discriminate].
  destruct (subscript entry "DeviceID"); [|discriminate].
  destruct (subscript entry "EnabledState"); [|discriminate].
  destruct (subscript entry "SensorType") as [type|]; [|discriminate].
  destruct (eq_str type "Temperature"); cbn [orb].
  - split_results. rewrite metrics_add_eq. intros [= <-]. cbn.
    rewrite length_app. reflexivity.
  - destruct (eq_str type "Tachometer").
    + split_results. rewrite metrics_add_eq. intros [= <-]. cbn.
      rewrite length_app. reflexivity.
    + intros [= <-]. lia.
Qed.

Lemma sensors_loop_adds (E : Env) (entries : list json) :
  forall st st',
    for_each entries (collect_sensors_entry E) st = (Ok tt, st') ->
    length (metrics (self st'))
    = (length (metrics (self st)) + length (List.filter emitting entries))%nat.
Proof.
  induction entries as [|e l IH]; intros st st'; cbn [for_each].
  - intros [= <-]. cbn. lia.
  - unfold bind.
    destruct (collect_sensors_entry E e st) as [[[]|x] s1] eqn:He;
      [|discriminate].
    intros Hl. apply sensors_entry_adds in He. apply IH in Hl.
    cbn [List.filter]. destruct (emitting e); cbn [length]; lia.
Qed.

(** X4: when the sensors collector returns on a collection it could read,
    the records it added are as many as the entries whose type is
    Temperature or Tachometer; the other entries gave none. *)
Theorem collect_sensors_counts_emitting (E : Env) (st st' : St)
    (doc members : json) (entries : list json) :
  answer E (resource Sensors) st = Response 200 (Some doc) ->
  method_get doc "Members" = Ok members ->
  py_iter members = Ok entries ->
  collect_sensors E st = (Ok tt, st') ->
  length (metrics (self st'))
  = (length (metrics (self st)) + length (List.filter emitting entries))%nat.
Proof.
  intros Ha Hm Hi. unfold collect_sensors, bind. cbn [resource] in Ha.
  rewrite get_unfold, Ha. cbn [rv_error rv_json Z.eqb Pos.eqb truthy_code].
  unfold lift. rewrite Hm, Hi. intros Hl.
  apply sensors_loop_adds in Hl. exact Hl.
Qed.

Lemma collect_sensors_counts_emitting_witness :
  length (metrics (self (snd (collect_sensors healthy_env sample_st))))
  = 2%nat.
Proof.
  refine (collect_sensors_counts_emitting healthy_env sample_st _
            sample_sensors
            (JArr [sample_temperature; sample_fan; sample_voltage])
            [sample_temperature; sample_fan; sample_voltage] _ _ _ _);
    reflexivity.
Defined.

(** ** The basics collector on a complete resource *)

(** X5: on a system resource that has all its fields, [collect_basics]
    adds six records in this order: [power_on] (1 exactly when the power
    state is the text On), [health_ok] (1 exactly when the health is the
    text OK, the health as label), [indicator_led_on] (0 exactly when the
    LED is the text Off), [memory_size], [cpu_count] (the count as it is
    in the document, the model as label) and [bios_version] (no value:
    NaN, the version as label). *)
Theorem collect_basics_six_records (E : Env) (st : St) (doc power status
    health led memory gibtext processor model count bios : json)
    (gib : float) (v : Z) :
  answer E (resource Basics) st = Response 200 (Some doc) ->
  subscript doc "PowerState" = Ok power ->
  subscript doc "Status" = Ok status ->
  subscript status "Health" = Ok health ->
  subscript doc "IndicatorLED" = Ok led ->
  subscript doc "MemorySummary" = Ok memory ->
  subscript memory "TotalSystemMemoryGiB" = Ok gibtext ->
  py_float E gibtext = Ok gib ->
  int_of_float (gib * float_of_Z (1024 ^ 4) / float_of_Z (10 ^ 9)) = Ok v ->
  subscript doc "ProcessorSummary" = Ok processor ->
  subscript processor "Model" = Ok model ->
  subscript processor "Count" = Ok count ->
  subscript doc "BiosVersion" = Ok bios ->
  collect_basics E st
  = (Ok tt,
     set_metrics
       (metrics (self st)
        ++ [line E "power_on" [] (flag power "On");
            line E "health_ok" [("status", health)] (flag health "OK");
            line E "indicator_led_on" []
              (JInt (if eq_str led "Off" then 0 else 1));
            line E "memory_size" [] (JInt v);
            line E "cpu_count" [("model", model)] count;
            line E "bios_version" [("version", bios)] JNull])
       (requested (resource Basics) st)).
Proof.
  intros Ha Hp Hs Hh Hl Hm Ht Hf Hi Hc Hmo Hco Hb.
  unfold collect_basics. run_m. cbn [resource] in Ha.
  rewrite get_unfold, Ha. cbn [rv_error rv_json Z.eqb Pos.eqb truthy_code].
  rewrite Hp, !metrics_add_eq. run_m.
  rewrite Hs, Hh, !metrics_add_eq. run_m.
  rewrite Hl, !metrics_add_eq. run_m.
  rewrite Hm, Ht, Hf, Hi, !metrics_add_eq. run_m.
  rewrite Hc, Hmo, Hco, !metrics_add_eq. run_m.
  rewrite Hb, !metrics_add_eq.
  f_equal. unfold set_metrics. cbn [self world metrics server baseurl sslcert token].
  rewrite <- !app_assoc. reflexivity.
Qed.

Lemma collect_basics_six_records_witness :
  metrics (self (snd (collect_basics healthy_env sample_st)))
  = [line healthy_env "power_on" [] (JInt 1);
     line healthy_env "health_ok" [("status", JStr "OK")] (JInt 1);
     line healthy_env "indicator_led_on" [] (JInt 0);
     line healthy_env "memory_size" [] (JInt 70368);
     line healthy_env "cpu_count" [("model", JStr "Xeon")] (JInt 2);
     line healthy_env "bios_version" [("version", JStr "2.4.8")] JNull].
Proof.
  rewrite (collect_basics_six_records healthy_env sample_st sample_system
             (JStr "On") (JObj [("Health", JStr "OK")]) (JStr "OK")
             (JStr "Off") (JObj [("TotalSystemMemoryGiB", JFloat 64)])
             (JFloat 64)
             (JObj [("Model", JStr "Xeon"); ("Count", JInt 2)])
             (JStr "Xeon") (JInt 2) (JStr "2.4.8") 64%float 70368
             eq_refl eq_refl eq_refl eq_refl eq_refl eq_refl eq_refl
             eq_refl eq_refl eq_refl eq_refl eq_refl eq_refl).
  reflexivity.
Defined.

(** ** The probe *)

(** X6: [authenticate] never raises and issues exactly one request, for
    [Chassis], with the new token in its header.  It returns [True] when
    the answer is a JSON body with status 200 (or the status 0 that Python
    takes for false).  On any other status with a JSON body it returns
    [False] and resets the token to [None]; when the request raises or the
    body is not JSON it returns [False] and the token stays set. *)
Theorem authenticate_outcomes (E : Env) (tok : string) (st : St) :
  let st1 := requested "Chassis" (set_token (Some tok) st) in
  authenticate E tok st
  = match answer E "Chassis" (set_token (Some tok) st) with
    | Response code (Some _) =>
        if (code =? 200) || (code =? 0) then (Ok true, st1)
        else (Ok false, set_token None st1)
    | _ => (Ok false, st1)
    end
  /\ net_log (world st1)
     = net_log (world st) ++ [get_request (self (set_token (Some tok) st))
                                "Chassis"]
  /\ req_authorization (get_request (self (set_token (Some tok) st)) "Chassis")
     = "Basic " +:+ tok
  /\ token (self st1) = Some tok
  /\ token (self (set_token None st1)) = None.
Proof.
  cbn zeta. split; [|repeat split].
  unfold authenticate. rewrite get_unfold.
  destruct (answer E "Chassis" _) as [|code [doc|]]; try reflexivity.
  cbn [rv_error]. destruct (code =? 200); [reflexivity|]. cbn.
  destruct (code =? 0); reflexivity.
Qed.

(** ** The registry: sessions are made once and kept *)

Lemma collect_metrics_keeps_session (E : Env) (t t' : string) (p : Process)
    (i : info) (r : nat) :
  hosts p !! t = Some i -> host i = Some r ->
  hosts (snd (collect_metrics E t' p)) !! t = Some i.
Proof.
  intros Hi Hh. destruct (decide (t' = t)) as [->|Hne].
  - unfold collect_metrics, seed_entry, open_session, run_session.
    run_m. rewrite Hi. run_m. rewrite Hi, Hh. run_m. rewrite Hi, Hh.
    destruct (valid i) as [[]|]; cbn [snd]; try exact Hi.
    rewrite on_object_hosts. exact Hi.
  - rewrite (collect_metrics_other_entry E t t' Hne p). exact Hi.
Qed.

Lemma collect_metrics_cached_heap_length (E : Env) (t : string) (p : Process)
    (i : info) (r : nat) :
  hosts p !! t = Some i -> host i = Some r ->
  length (heap (snd (collect_metrics E t p))) = length (heap p).
Proof.
  intros Hi Hh.
  unfold collect_metrics, seed_entry, open_session, run_session.
  run_m. rewrite Hi. run_m. rewrite Hi, Hh. run_m. rewrite Hi, Hh.
  destruct (valid i) as [[]|]; cbn [snd]; try reflexivity.
  apply on_object_heap_length.
Qed.

(** X7: once the entry of a target holds a session, no request for any
    target changes that entry again: the session is not made anew, the
    flag ['valid'] is not revised, the entry is not dropped.  A request
    for the target itself creates no session object. *)
Theorem session_entry_is_final (E : Env) (t : string) (i : info) (r : nat)
    (targets : list string) :
  forall p,
    hosts p !! t = Some i -> host i = Some r ->
    hosts (snd (serve E targets p)) !! t = Some i
    /\ length (heap (snd (collect_metrics E t p))) = length (heap p).
Proof.
  intros p Hi Hh.
  split; [|exact (collect_metrics_cached_heap_length E t p i r Hi Hh)].
  revert p Hi. induction targets as [|t' rest IH]; intros p Hi; [exact Hi|].
  cbn [serve].
  pose proof (collect_metrics_keeps_session E t t' p i r Hi Hh) as H1.
  destruct (collect_metrics E t' p) as [res p1]. cbn [snd] in H1.
  specialize (IH p1 H1). destruct (serve E rest p1) as [evs p2]. exact IH.
Qed.

Lemma session_entry_is_final_witness :
  hosts (snd (serve healthy_env ["idrac2"; "idrac1"; "default"]
                (snd (collect_metrics healthy_env "idrac1" startup))))
    !! "idrac1"
  = Some (with_session sample_credentials 0 true).
Proof.
  refine (proj1 (session_entry_is_final healthy_env "idrac1"
                   (with_session sample_credentials 0 true) 0
                   ["idrac2"; "idrac1"; "default"] _ _ _)).
  - vm_compute. reflexivity.
  - reflexivity.
Defined.

Lemma on_object_run {A} (r : nat) (m : M St A) (p : Process)
    (obj : RedfishAPI) :
  heap p !! r = Some obj ->
  on_object r m p
  = (fst (m {| self := obj; world := outside p |}),
     {| hosts := hosts p;
        heap := <[r := self (snd (m {| self := obj; world := outside p |}))]>
                  (heap p);
        outside := world (snd (m {| self := obj; world := outside p |})) |}).
Proof.
  intros H. unfold on_object. rewrite H. destruct (m _). reflexivity.
Qed.

Lemma cached_request (E : Env) (t : string) (p : Process)
    (i : info) (r : nat) (obj : RedfishAPI) :
  hosts p !! t = Some i -> host i = Some r -> valid i = Some true ->
  heap p !! r = Some obj ->
  let st := {| self := obj; world := outside p |} in
  collect_metrics E t p
  = (fst (RedfishAPI_collect_metrics E st),
     {| hosts := hosts p;
        heap := <[r := self (snd (RedfishAPI_collect_metrics E st))]> (heap p);
        outside := world (snd (RedfishAPI_collect_metrics E st)) |})
  /\ exists n,
       (1 <= n <= 3)%nat
       /\ net_log (outside (snd (collect_metrics E t p)))
          = net_log (outside p) ++ take n (pass_requests obj).
Proof.
  intros Hi Hh Hv Hobj st.
  assert (Heq : collect_metrics E t p
                = on_object r (RedfishAPI_collect_metrics E) p).
  { unfold collect_metrics, seed_entry, open_session, run_session.
    run_m. rewrite Hi. run_m. rewrite Hi, Hh. run_m. rewrite Hi, Hh, Hv.
    reflexivity. }
  rewrite Heq, (on_object_run r _ p obj Hobj). split; [reflexivity|].
  destruct (pass_requests_sent E st) as (n & Hn & Hlog & _).
  exists n. split; [exact Hn|exact Hlog].
Qed.

(** X8: a request for a target whose session is cached and valid sends no
    probe: it runs one pass on the cached object and issues only that
    pass's one to three requests, built from the cached URL root and
    token. *)
Theorem cached_session_sends_no_probe (E : Env) (t : string) (p : Process)
    (i : info) (r : nat) (obj : RedfishAPI) :
  hosts p !! t = Some i -> host i = Some r -> valid i = Some true ->
  heap p !! r = Some obj ->
  let st := {| self := obj; world := outside p |} in
  collect_metrics E t p
  = (fst (RedfishAPI_collect_metrics E st),
     {| hosts := hosts p;
        heap := <[r := self (snd (RedfishAPI_collect_metrics E st))]> (heap p);
        outside := world (snd (RedfishAPI_collect_metrics E st)) |})
  /\ exists n,
       (1 <= n <= 3)%nat
       /\ net_log (outside (snd (collect_metrics E t p)))
          = net_log (outside p) ++ take n (pass_requests obj).
Proof. exact (cached_request E t p i r obj). Qed.

Lemma cached_session_sends_no_probe_witness :
  exists n,
    (1 <= n <= 3)%nat
    /\ net_log (outside (snd (collect_metrics healthy_env "idrac1"
                                served_once)))
       = net_log (outside served_once) ++ take n (pass_requests first_session).
Proof.
  refine (proj2 (cached_session_sends_no_probe healthy_env "idrac1"
                   served_once (with_session sample_credentials 0 true) 0
                   first_session _ _ _ _)).
  - vm_compute. reflexivity.
  - reflexivity.
  - reflexivity.
  - vm_compute. reflexivity.
Defined.

Lemma authenticate_true (E : Env) (t : string) (i : info) (w : World) :
  probe_accepted E t i w = true ->
  authenticate E (info_token i) {| self := RedfishAPI_init t; world := w |}
  = (Ok true, probed t i w).
Proof.
  unfold probe_accepted, authenticate, probed. rewrite get_unfold.
  destruct (answer E "Chassis" _) as [|code [doc|]]; try discriminate.
  intros H. cbn [rv_error].
  destruct (code =? 200); [reflexivity|]. cbn in H |- *. rewrite H.
  reflexivity.
Qed.

Lemma insert_last {A} (l : list A) (x y : A) :
  <[length l := y]> (l ++ [x]) = l ++ [y].
Proof.
  rewrite insert_app_r_alt by lia. rewrite Nat.sub_diag. reflexivity.
Qed.

(** X9: the first request for a target whose probe is accepted makes one
    session object, sends the probe, stores the session in the target's
    entry with ['valid'] = True, and runs the pass on the new object right
    after the probe; every entry that already holds a session is left as
    it was. *)
Theorem first_request_opens_session (E : Env) (t : string) (p : Process)
    (i : info) :
  seeded p t = Some i ->
  host i = None ->
  probe_accepted E t i (outside p) = true ->
  let run := RedfishAPI_collect_metrics E (probed t i (outside p)) in
  let after := snd (collect_metrics E t p) in
  fst (collect_metrics E t p) = fst run
  /\ hosts after !! t = Some (with_session i (length (heap p)) true)
  /\ heap after = heap p ++ [self (snd run)]
  /\ outside after = world (snd run)
  /\ (forall k j, hosts p !! k = Some j -> host j <> None ->
                  hosts after !! k = Some j).
Proof.
  intros Hs Hh Hp run after. subst run after.
  destruct (seed_entry_seeds t p i Hs) as (p1 & Hseed & Hi & Hheap & Hout).
  assert (Hhosts : forall k j, hosts p !! k = Some j -> host j <> None ->
                               k <> t /\ hosts p1 !! k = Some j).
  { intros k j Hk Hj. assert (Hkt : k <> t).
    { intros ->. unfold seeded in Hs. rewrite Hk in Hs.
      injection Hs as ->. contradiction. }
    split; [exact Hkt|].
    revert Hseed. unfold seed_entry. run_m.
    destruct (hosts p !! t) as [j'|]; [intros [= <-]; exact Hk|].
    destruct (hosts p !! "default") as [d|]; [|discriminate].
    intros [= <-]. cbn. rewrite lookup_insert_ne by congruence. exact Hk. }
  assert (Heq : collect_metrics E t p
                = (fst (RedfishAPI_collect_metrics E (probed t i (outside p))),
                   {| hosts := <[t := with_session i (length (heap p)) true]>
                                 (hosts p1);
                      heap := heap p ++
                              [self (snd (RedfishAPI_collect_metrics E
                                            (probed t i (outside p))))];
                      outside := world (snd (RedfishAPI_collect_metrics E
                                               (probed t i (outside p)))) |})).
  { unfold with_session in *.
    unfold collect_metrics, open_session, run_session.
    run_m. rewrite Hseed. run_m. rewrite Hi, Hh. run_m.
    unfold alloc, on_object. cbn [heap outside hosts].
    rewrite Hheap, lookup_app_r, Nat.sub_diag by reflexivity.
    cbn [lookup list_lookup].
    rewrite Hout, (authenticate_true E t i (outside p) Hp).
    unfold set_entry. cbn [hosts heap outside].
    rewrite lookup_insert_eq. cbn [valid host heap outside hosts].
    rewrite insert_last, lookup_app_r, Nat.sub_diag by reflexivity.
    cbn [lookup list_lookup].
    destruct (RedfishAPI_collect_metrics E _) as [res st1].
    cbn [fst snd]. rewrite insert_last. reflexivity. }
  rewrite Heq. cbn [fst snd hosts heap outside].
  split; [reflexivity|]. split; [apply lookup_insert_eq|].
  split; [reflexivity|]. split; [reflexivity|].
  intros k j Hk Hj. destruct (Hhosts k j Hk Hj) as [Hkt Hk1].
  rewrite lookup_insert_ne by congruence. exact Hk1.
Qed.

Lemma first_request_opens_session_witness :
  hosts served_once !! "idrac1" = Some (with_session sample_credentials 0 true)
  /\ length (heap served_once) = 1%nat
  /\ length (net_log (outside served_once)) = 4%nat.
Proof.
  destruct (first_request_opens_session healthy_env "idrac1" startup
              sample_credentials eq_refl eq_refl eq_refl)
    as (_ & Hentry & Hheap & Hout & _).
  split; [exact Hentry|]. unfold served_once.
  rewrite Hheap, Hout. split; reflexivity.
Defined.

(** X10: a target that is not in the registry, asked for when the default
    entry already holds a session, gets a copy of the default entry with
    that same session: no object is made and no probe is sent for it.  It
    is rejected when the default's session is invalid, and otherwise the
    pass runs on the default's session object. *)
Theorem unknown_target_shares_default_session (E : Env) (t : string)
    (p : Process) (d : info) (r : nat) :
  hosts p !! t = None ->
  hosts p !! "default" = Some d ->
  host d = Some r ->
  collect_metrics E t p
  = match valid d with
    | Some true => on_object r (RedfishAPI_collect_metrics E) (set_entry t d p)
    | _ => (Raise (RuntimeError "Invalid host"), set_entry t d p)
    end
  /\ hosts (snd (collect_metrics E t p)) !! t = Some d
  /\ length (heap (snd (collect_metrics E t p))) = length (heap p).
Proof.
  intros Ht Hd Hh.
  assert (Heq : collect_metrics E t p
                = match valid d with
                  | Some true =>
                      on_object r (RedfishAPI_collect_metrics E)
                        (set_entry t d p)
                  | _ => (Raise (RuntimeError "Invalid host"), set_entry t d p)
                  end).
  { unfold collect_metrics, seed_entry, open_session, run_session.
    run_m. rewrite Ht. run_m. rewrite Hd. run_m.
    unfold set_entry. cbn [hosts]. rewrite lookup_insert_eq, Hh. run_m.
    cbn [hosts]. rewrite lookup_insert_eq, Hh.
    destruct (valid d) as [[]|]; reflexivity. }
  rewrite Heq.
  destruct (valid d) as [[]|]; cbn [snd];
    rewrite ?on_object_hosts, ?on_object_heap_length; cbn;
    rewrite lookup_insert_eq; auto.
Qed.

Lemma unknown_target_shares_default_session_witness :
  collect_metrics healthy_env "idrac1" served_default
  = (Raise (RuntimeError "Invalid host"),
     set_entry "idrac1" (with_session sample_credentials 0 false)
       served_default).
Proof.
  rewrite (proj1 (unknown_target_shares_default_session healthy_env "idrac1"
                    served_default (with_session sample_credentials 0 false)
                    0 eq_refl eq_refl eq_refl)).
  reflexivity.
Defined.

(** ** The handler *)

Lemma span_lower_letter (c : ascii) (r : string) :
  is_lower c = true ->
  span_lower (String c r) = (String c (fst (span_lower r)), snd (span_lower r)).
Proof.
  intros H. cbn [span_lower]. rewrite H. destruct (span_lower r). reflexivity.
Qed.

Lemma span_lower_other (c : ascii) (r : string) :
  is_lower c = false -> span_lower (String c r) = (EmptyString, String c r).
Proof. intros H. cbn [span_lower]. rewrite H. reflexivity. Qed.

Lemma re_match_target (t : string) :
  until_newline t = t ->
  re_match ("/metrics?target=" +:+ t) = Some ("metrics", Some t).
Proof.
  intros Ht. rewrite !append_cons, append_empty_l.
  unfold re_match.
  rewrite !span_lower_letter by reflexivity.
  rewrite span_lower_other by reflexivity.
  cbn [fst snd strip_prefix Ascii.eqb Bool.eqb option_map].
  rewrite Ht. reflexivity.
Qed.

(** X11: for the path [/metrics?target=] followed by a non-empty target
    without line feed, [do_GET] hands the text after [target=] to
    [collect_metrics] as it is, undecoded and with whatever follows an
    ampersand.  When the pass returns a text it sends status 200 and the
    header, and then the bytes of the text as body; a text with a lone
    surrogate cannot be encoded, and then no body follows the header and
    [do_GET] raises.  When the collection raises, whatever the exception,
    it sends status 500, the header and an empty body.  The state the
    collection left is kept in both cases. *)
Theorem do_GET_collects_for_target (E : Env) (t : string) (p : Process) :
  t <> EmptyString ->
  until_newline t = t ->
  do_GET E ("/metrics?target=" +:+ t) p
  = match collect_metrics E t p with
    | (Ok text, p') =>
        (Ok {| status := 200;
               headers := [("Content-type", "text/plain")];
               body := if has_surrogate text then Raise ValueError
                       else Ok text |}, p')
    | (Raise _, p') =>
        (Ok {| status := 500;
               headers := [("Content-type", "text/plain")];
               body := Ok EmptyString |}, p')
    end.
Proof.
  intros Hne Ht.
  rewrite (do_GET_matched E _ "metrics" (Some t) p (re_match_target t Ht)).
  cbn [String.eqb Ascii.eqb Bool.eqb negb].
  destruct t as [|c r]; [contradiction|reflexivity].
Qed.

Lemma do_GET_collects_for_target_witness :
  fst (do_GET unauthorized_env "/metrics?target=idrac1&x=1" startup)
  = Ok (respond 500 EmptyString)
  /\ hosts (snd (do_GET unauthorized_env "/metrics?target=idrac1&x=1" startup))
       !! "idrac1&x=1"
     = Some (with_session sample_credentials 0 false)
  /\ fst (do_GET surrogate_env "/metrics?target=idrac1" startup)
     = Ok {| status := 200;
             headers := [("Content-type", "text/plain")];
             body := Raise ValueError |}.
Proof.
  change "/metrics?target=idrac1&x=1"
    with ("/metrics?target=" +:+ "idrac1&x=1").
  change "/metrics?target=idrac1" with ("/metrics?target=" +:+ "idrac1").
  rewrite (do_GET_collects_for_target unauthorized_env "idrac1&x=1" startup)
    by (discriminate || reflexivity).
  rewrite (do_GET_collects_for_target surrogate_env "idrac1" startup)
    by (discriminate || reflexivity).
  split; [reflexivity|]. split; vm_compute; reflexivity.
Defined.

(** X12: whenever [do_GET] sends a response, the status it passes to
    [send_response] is 200, 400, 404 or 500 and the one header it adds
    with [send_header] is [Content-type: text/plain].  With a status
    other than 200 it writes an empty body.  Status 200 is sent only for
    the metrics path with a target whose collection returned a text in
    the state that is kept; the body is the bytes of that text, or is
    missing when the text cannot be encoded.  With status 400 or 404
    nothing was collected: the process state is as before. *)
Theorem do_GET_response_shape (E : Env) (path : string) (p p' : Process)
    (r : response) :
  do_GET E path p = (Ok r, p') ->
  known_status (status r) = true
  /\ headers r = [("Content-type", "text/plain")]
  /\ (status r <> 200 -> body r = Ok EmptyString)
  /\ (status r = 200 ->
      exists t text,
        re_match path = Some ("metrics", Some t)
        /\ collect_metrics E t p = (Ok text, p')
        /\ body r = if has_surrogate text then Raise ValueError
                    else Ok text)
  /\ (status r = 400 \/ status r = 404 -> p' = p).
Proof.
  intros H.
  destruct (re_match path) as [[b t]|] eqn:Hm.
  - rewrite (do_GET_matched E path b t p Hm) in H.
    destruct (String.eqb_spec b "metrics") as [->|Hb]; cbn [negb] in H.
    + destruct t as [[|c t]|];
        try (injection H as <- <-; cbn; repeat split; auto; discriminate).
      destruct (collect_metrics E (String c t) p) as [[text|e] p1] eqn:Hc;
        injection H as <- <-; cbn; repeat split; auto;
        try contradiction; try discriminate;
        try (intros [?|?]; discriminate).
      intros _. exists (String c t), text. auto.
    + injection H as <- <-. cbn. repeat split; auto; discriminate.
  - unfold do_GET in H. rewrite Hm in H. discriminate H.
Qed.

Lemma do_GET_response_shape_witness :
  exists t text,
    re_match "/metrics?target=idrac1" = Some ("metrics", Some t)
    /\ collect_metrics healthy_env t startup = (Ok text, served_once).
Proof.
  assert (H : do_GET healthy_env "/metrics?target=idrac1" startup
              = (Ok (respond 200
                       (match fst (collect_metrics healthy_env "idrac1"
                                     startup) with
                        | Ok text => text
                        | Raise _ => EmptyString
                        end)), served_once))
    by (vm_compute; reflexivity).
  destruct (do_GET_response_shape healthy_env "/metrics?target=idrac1"
              startup served_once _ H) as (_ & _ & _ & H200 & _).
  destruct (H200 eq_refl) as (t & text & Hm & Hc & Hb).
  exists t, text. split; [exact Hm|exact Hc].
Defined.

(** X13: a request for a target that is not in the registry, when the
    registry has no default entry either, fails on the missing key: the
    registry gets no entry, no request is sent, and the handler answers
    500 with an empty body. *)
Theorem unknown_target_without_default (E : Env) (t : string) (p : Process) :
  hosts p !! t = None ->
  hosts p !! "default" = None ->
  collect_metrics E t p = (Raise (KeyError "default"), p)
  /\ (t <> EmptyString -> until_newline t = t ->
      do_GET E ("/metrics?target=" +:+ t) p
      = (Ok (respond 500 EmptyString), p)).
Proof.
  intros Ht Hd.
  assert (Heq : collect_metrics E t p = (Raise (KeyError "default"), p)).
  { unfold collect_metrics, seed_entry. run_m. rewrite Ht. run_m.
    rewrite Hd. reflexivity. }
  split; [exact Heq|]. intros Hne Hnl.
  rewrite (do_GET_matched E _ "metrics" (Some t) p (re_match_target t Hnl)).
  cbn [String.eqb Ascii.eqb Bool.eqb negb].
  destruct t as [|c r]; [contradiction|]. rewrite Heq. reflexivity.
Qed.

Lemma unknown_target_without_default_witness :
  do_GET healthy_env "/metrics?target=idrac1" no_hosts
  = (Ok (respond 500 EmptyString), no_hosts).
Proof.
  change "/metrics?target=idrac1" with ("/metrics?target=" +:+ "idrac1").
  apply (proj2 (unknown_target_without_default healthy_env "idrac1" no_hosts
                  eq_refl eq_refl)); [discriminate|reflexivity].
Defined.

(** ** The token *)

Lemma b64_index_char (s : sextet) : b64_index (b64_char s) = Some s.
Proof.
  destruct s as [[[[[b5 b4] b3] b2] b1] b0].
  destruct b5, b4, b3, b2, b1, b0; reflexivity.
Qed.

Lemma b64_char_not_pad (s : sextet) : Ascii.eqb (b64_char s) pad = false.
Proof.
  destruct s as [[[[[b5 b4] b3] b2] b1] b0].
  destruct b5, b4, b3, b2, b1, b0; reflexivity.
Qed.

Lemma b64_char_ascii (s : sextet) : is_ascii (b64_char s) = true.
Proof.
  destruct s as [[[[[b5 b4] b3] b2] b1] b0].
  destruct b5, b4, b3, b2, b1, b0; reflexivity.
Qed.

(** induction on a list three elements at a time *)
Lemma list_ind3 {A} (P : list A -> Prop) :
  P [] -> (forall a, P [a]) -> (forall a b, P [a; b]) ->
  (forall a b c l, P l -> P (a :: b :: c :: l)) ->
  forall l, P l.
Proof.
  intros H0 H1 H2 H3.
  assert (H : forall l, P l /\ (forall a, P (a :: l))
                        /\ (forall a b, P (a :: b :: l))).
  { induction l as [|x l (IH0 & IH1 & IH2)].
    - repeat split; auto.
    - repeat split; auto. }
  intros l. apply H.
Qed.

Lemma b64decode_enc3 (a b c : ascii) (rest : list ascii) :
  b64decode (enc3 a b c ++ rest)
  = match b64decode rest with
    | Some y => Some (a :: b :: c :: y)
    | None => None
    end.
Proof.
  destruct a, b, c. cbn [enc3 app b64decode]. unfold dec4.
  rewrite !b64_index_char, !b64_char_not_pad.
  destruct (b64decode rest); reflexivity.
Qed.

Lemma b64decode_encode (l : list ascii) : b64decode (b64encode l) = Some l.
Proof.
  induction l as [|a|a b|a b c l IH] using list_ind3.
  - reflexivity.
  - destruct a. cbn [b64encode enc1 b64decode]. unfold dec4.
    rewrite !b64_index_char. reflexivity.
  - destruct a, b. cbn [b64encode enc2 b64decode]. unfold dec4.
    rewrite !b64_index_char, !b64_char_not_pad. reflexivity.
  - cbn [b64encode]. rewrite b64decode_enc3, IH. reflexivity.
Qed.

Lemma b64encode_ascii (l : list ascii) : forallb is_ascii (b64encode l) = true.
Proof.
  induction l as [|a|a b|a b c l IH] using list_ind3.
  - reflexivity.
  - destruct a. cbn [b64encode enc1 forallb]. rewrite !b64_char_ascii.
    reflexivity.
  - destruct a, b. cbn [b64encode enc2 forallb]. rewrite !b64_char_ascii.
    reflexivity.
  - cbn [b64encode]. rewrite forallb_app, IH. destruct a, b, c.
    cbn [enc3 forallb]. rewrite !b64_char_ascii. reflexivity.
Qed.

Lemma b64encode_length (l : list ascii) :
  length (b64encode l) = (4 * ((length l + 2) / 3))%nat.
Proof.
  induction l as [|a|a b|a b c l IH] using list_ind3.
  - reflexivity.
  - destruct a. reflexivity.
  - destruct a, b. reflexivity.
  - cbn [b64encode]. rewrite length_app, IH. destruct a, b, c.
    cbn [enc3 length].
    replace (S (S (S (length l))) + 2)%nat with (1 * 3 + (length l + 2))%nat
      by lia.
    rewrite Nat.div_add_l by lia. lia.
Qed.

Lemma string_length_list (s : string) :
  String.length s = length (list_ascii_of_string s).
Proof. induction s as [|c s IH]; cbn; congruence. Qed.

Lemma encode_token_unfold (E : Env) (u p : json) :
  encode_token E u p
  = if forallb is_ascii (list_ascii_of_string (credentials_text E u p))
    then Ok (string_of_list_ascii
               (b64encode (list_ascii_of_string (credentials_text E u p))))
    else Raise ValueError.
Proof.
  unfold encode_token, encode_ascii, decode_ascii.
  destruct (forallb is_ascii (list_ascii_of_string _)); [|reflexivity].
  rewrite b64encode_ascii. reflexivity.
Qed.

Lemma token_decodes (E : Env) (u p : json) (tok : string) :
  encode_token E u p = Ok tok ->
  b64decode (list_ascii_of_string tok)
  = Some (list_ascii_of_string (credentials_text E u p)).
Proof.
  rewrite encode_token_unfold.
  destruct (forallb is_ascii _); [|discriminate]. intros [= <-].
  rewrite list_ascii_of_string_of_list_ascii. apply b64decode_encode.
Qed.

(** X14: a token is the credentials in another alphabet: decoding the
    base64 text of a token gives back the text [username:password], and
    the token is four characters for every three of that text, the last
    group padded. *)
Theorem token_round_trip (E : Env) (u p : json) (tok : string) :
  encode_token E u p = Ok tok ->
  b64decode (list_ascii_of_string tok)
  = Some (list_ascii_of_string (credentials_text E u p))
  /\ String.length tok
     = (4 * ((String.length (credentials_text E u p) + 2) / 3))%nat.
Proof.
  rewrite encode_token_unfold.
  destruct (forallb is_ascii _); [|discriminate]. intros [= <-].
  rewrite string_length_list, list_ascii_of_string_of_list_ascii.
  split; [apply b64decode_encode|].
  rewrite b64encode_length, <- string_length_list. reflexivity.
Qed.

Lemma token_round_trip_witness :
  b64decode (list_ascii_of_string "cm9vdDpjYWx2aW4=")
  = Some (list_ascii_of_string "root:calvin")
  /\ String.length "cm9vdDpjYWx2aW4=" = 16%nat.
Proof.
  apply (token_round_trip healthy_env (JStr "root") (JStr "calvin")).
  reflexivity.
Defined.

(** X15: [encode_token] raises exactly when the text [username:password]
    has a character outside ASCII (an uncaught [UnicodeEncodeError]);
    otherwise it returns the base64 text, which never fails to decode as
    ASCII. *)
Theorem encode_token_ascii_only (E : Env) (u p : json) :
  (forallb is_ascii (list_ascii_of_string (credentials_text E u p)) = true ->
   encode_token E u p
   = Ok (string_of_list_ascii
           (b64encode (list_ascii_of_string (credentials_text E u p)))))
  /\ (forallb is_ascii (list_ascii_of_string (credentials_text E u p)) = false ->
      encode_token E u p = Raise ValueError).
Proof.
  rewrite encode_token_unfold. split; intros ->; reflexivity.
Qed.

Lemma encode_token_ascii_only_witness :
  encode_token healthy_env (JStr "root") (JStr "calvin")
  = Ok "cm9vdDpjYWx2aW4="
  /\ encode_token healthy_env (JStr "root")
       (JStr (String (Ascii true false false true false true true true)
                EmptyString))
     = Raise ValueError.
Proof.
  split.
  - apply (proj1 (encode_token_ascii_only healthy_env (JStr "root")
                    (JStr "calvin"))). reflexivity.
  - apply (proj2 (encode_token_ascii_only healthy_env (JStr "root") _)).
    reflexivity.
Defined.

Lemma list_ascii_inj (s t : string) :
  list_ascii_of_string s = list_ascii_of_string t -> s = t.
Proof.
  intros H. rewrite <- (string_of_list_ascii_of_string s),
    <- (string_of_list_ascii_of_string t), H. reflexivity.
Qed.

Lemma split_at_colon (u u' p p' : string) :
  no_colon u = true -> no_colon u' = true ->
  u +:+ ":" +:+ p = u' +:+ ":" +:+ p' -> u = u' /\ p = p'.
Proof.
  revert u'. induction u as [|c u IH]; intros [|c' u'] Hu Hu' H;
    cbn [no_colon] in Hu, Hu'; rewrite ?append_cons, ?append_empty_l in H.
  - injection H as ->. auto.
  - injection H as <- _. discriminate Hu'.
  - injection H as -> _. discriminate Hu.
  - injection H as -> H. apply andb_prop in Hu as [_ Hu].
    apply andb_prop in Hu' as [_ Hu'].
    destruct (IH u' Hu Hu' H) as [-> ->]. auto.
Qed.

(** X16: two pairs of credentials that get the same token have the same
    text [username:password]; when neither user name contains a colon they
    are the same pair.  A colon in the user name is not told from the
    separator: moving the part after it to the password gives the same
    token. *)
Theorem token_determines_credentials (E : Env) (u p u' p' : string)
    (tok : string) :
  encode_token E (JStr u) (JStr p) = Ok tok ->
  encode_token E (JStr u') (JStr p') = Ok tok ->
  u +:+ ":" +:+ p = u' +:+ ":" +:+ p'
  /\ (no_colon u = true -> no_colon u' = true -> u = u' /\ p = p')
  /\ (forall a b c,
        encode_token E (JStr (a +:+ ":" +:+ b)) (JStr c)
        = encode_token E (JStr a) (JStr (b +:+ ":" +:+ c))).
Proof.
  intros H H'.
  apply token_decodes in H. apply token_decodes in H'.
  assert (Heq : u +:+ ":" +:+ p = u' +:+ ":" +:+ p').
  { apply list_ascii_inj. unfold credentials_text in H, H'. cbn in H, H'.
    congruence. }
  split; [exact Heq|]. split.
  - intros Hu Hu'. exact (split_at_colon u u' p p' Hu Hu' Heq).
  - intros a b c. unfold encode_token, credentials_text. cbn [py_str].
    rewrite !append_assoc. reflexivity.
Qed.

Lemma token_determines_credentials_witness :
  "a:b" +:+ ":" +:+ "c" = "a" +:+ ":" +:+ "b:c".
Proof.
  apply (proj1 (token_determines_credentials healthy_env "a:b" "c" "a" "b:c"
                  "YTpiOmM=" eq_refl eq_refl)).
Defined.

(** ** Startup *)

Lemma dict_get_set_eq {A} (k : string) (v : A) (d : list (string * A)) :
  dict_get k (dict_set k v d) = Some v.
Proof.
  induction d as [|[k' v'] d IH]; cbn [dict_set dict_get].
  - rewrite String.eqb_refl. reflexivity.
  - destruct (String.eqb k' k) eqn:Hk; cbn [dict_get].
    + rewrite String.eqb_refl. reflexivity.
    + rewrite Hk. exact IH.
Qed.

Lemma dict_get_set_ne {A} (k k0 : string) (v : A) (d : list (string * A)) :
  k0 <> k -> dict_get k0 (dict_set k v d) = dict_get k0 d.
Proof.
  intros Hne. induction d as [|[k' v'] d IH]; cbn [dict_set dict_get].
  - destruct (String.eqb_spec k k0); [congruence|reflexivity].
  - destruct (String.eqb_spec k' k) as [->|Hk]; cbn [dict_get].
    + destruct (String.eqb_spec k k0); [congruence|reflexivity].
    + destruct (String.eqb k' k0); [reflexivity|exact IH].
Qed.

Lemma load_host_done (E : Env) (key : string) (value value' : json) :
  load_host E key value = Done value' -> has_token E (key, value').
Proof.
  unfold load_host, has_token.
  destruct value as [| | | | |l|d]; cbn [py_contains]; try discriminate.
  - destruct (String.index 0 "username" s); [|discriminate].
    destruct (String.index 0 "password" s); discriminate.
  - destruct (existsb _ l); [|discriminate].
    destruct (existsb _ l); discriminate.
  - cbn [subscript]. destruct (dict_get "username" d) as [u|] eqn:Hu;
      [|discriminate].
    destruct (dict_get "password" d) as [p|] eqn:Hp; [|discriminate].
    destruct (encode_token E u p) as [tok|] eqn:Ht; [|discriminate].
    cbn [set_item]. intros [= <-]. exists u, p, tok. cbn [snd subscript].
    rewrite !dict_get_set_ne, Hu, Hp, dict_get_set_eq by discriminate.
    auto.
Qed.

Lemma load_hosts_done (E : Env) (hs : list (string * json)) :
  forall hs', load_hosts E hs = Done hs' ->
              Forall (has_token E) hs' /\ map fst hs' = map fst hs.
Proof.
  induction hs as [|[k v] hs IH]; intros hs'; cbn [load_hosts].
  - intros [= <-]. split; [constructor|reflexivity].
  - destruct (load_host E k v) as [v'| |] eqn:Hv; try discriminate.
    destruct (load_hosts E hs) as [rest| |]; try discriminate.
    intros [= <-]. destruct (IH rest eq_refl) as [H1 H2].
    split; [constructor; [exact (load_host_done E k v v' Hv)|exact H1]|].
    cbn [map fst]. rewrite H2. reflexivity.
Qed.

Lemma get_truthy_subscript (config : json) (k : string) (v : json) :
  method_get config k = Ok v -> py_truthy v = true ->
  subscript config k = Ok v.
Proof.
  destruct config; cbn [method_get subscript]; try discriminate.
  destruct (dict_get k fields) as [x|]; cbn [default]; unfold id.
  - intros [= ->] _. reflexivity.
  - intros [= <-]. discriminate.
Qed.

Lemma listen_address_ok (config address : json) :
  listen_address config = Ok address ->
  exists a0, method_get config "address" = Ok a0
             /\ address = if py_truthy a0 then a0 else JStr "0.0.0.0".
Proof.
  unfold listen_address.
  destruct (method_get config "address") as [a0|] eqn:Hg; [|discriminate].
  intros Ha. exists a0. split; [reflexivity|].
  destruct (py_truthy a0) eqn:Hx; [|congruence].
  rewrite (get_truthy_subscript config "address" a0 Hg Hx) in Ha. congruence.
Qed.

Lemma listen_port_ok (E : Env) (config : json) (port : Z) :
  listen_port E config = Ok port ->
  exists p0, method_get config "port" = Ok p0
             /\ if py_truthy p0 then py_int E p0 = Ok port else port = 9348.
Proof.
  unfold listen_port.
  destruct (method_get config "port") as [p0|] eqn:Hg; [|discriminate].
  intros Hn. exists p0. split; [reflexivity|].
  destruct (py_truthy p0) eqn:Hx; [|congruence].
  rewrite (get_truthy_subscript config "port" p0 Hg Hx) in Hn. exact Hn.
Qed.

(** X17: when the script gets as far as serving, every host of the
    registry holds its credentials and under ['token'] the token
    [encode_token] makes of them; the registry has the hosts of the
    configuration in its order; the server could start; the address is
    the value [config.get('address')] when that is a true value and
    ['0.0.0.0'] when it is not; the port is [int] of the value
    [config.get('port')] when that is a true value and 9348 when it is
    not, so that a port [0] or an empty address in the file give the
    defaults. *)
Theorem serving_registry_has_tokens (E : Env) (S : Sys) (address : json)
    (port : Z) (hosts : list (string * json)) :
  main E S = Serving address port hosts ->
  Forall (has_token E) hosts
  /\ serve_error S address port = None
  /\ exists file config hs a0 p0,
       open_file S (config_path S) = Some file
       /\ yaml_full_load S file = Some config
       /\ subscript config "hosts" = Ok (JObj hs)
       /\ map fst hosts = map fst hs
       /\ method_get config "address" = Ok a0
       /\ address = (if py_truthy a0 then a0 else JStr "0.0.0.0")
       /\ method_get config "port" = Ok p0
       /\ (if py_truthy p0 then py_int E p0 = Ok port else port = 9348).
Proof.
  unfold main.
  destruct (open_file S (config_path S)) as [file|] eqn:Hf; [|discriminate].
  destruct (yaml_full_load S file) as [config|] eqn:Hy; [|discriminate].
  destruct (listen_address config) as [a|] eqn:Ha; [|discriminate].
  destruct (listen_port E config) as [n|] eqn:Hn; [|discriminate].
  destruct (subscript config "hosts") as [[| | | | | |hs]|] eqn:Hh;
    try discriminate.
  destruct (load_hosts E hs) as [hs'| |] eqn:Hl; try discriminate.
  destruct (serve_error S a n) eqn:Hs; [discriminate|].
  intros [= <- <- <-].
  destruct (load_hosts_done E hs hs' Hl) as [H1 H2].
  destruct (listen_address_ok config a Ha) as (a0 & Ha0 & Haddr).
  destruct (listen_port_ok E config n Hn) as (p0 & Hp0 & Hport).
  split; [exact H1|]. split; [exact Hs|].
  exists file, config, hs, a0, p0. repeat split; assumption.
Qed.

Lemma serving_registry_has_tokens_witness :
  Forall (has_token healthy_env)
    [("default",
      JObj [("username", JStr "root"); ("password", JStr "calvin");
            ("token", JStr "cm9vdDpjYWx2aW4=")]);
     ("idrac9",
      JObj [("username", JStr "monitor"); ("password", JInt 1234);
            ("token", JStr "bW9uaXRvcjoxMjM0")])]
  /\ exists a0 p0,
       method_get bound_config "address" = Ok a0
       /\ JStr "127.0.0.1" = (if py_truthy a0 then a0 else JStr "0.0.0.0")
       /\ method_get bound_config "port" = Ok p0
       /\ (if py_truthy p0 then py_int healthy_env p0 = Ok 9000
           else 9000 = 9348).
Proof.
  split.
  - refine (proj1 (serving_registry_has_tokens healthy_env sample_sys
                     (JStr "0.0.0.0") 9348 _ _)).
    reflexivity.
  - destruct (serving_registry_has_tokens healthy_env bound_sys
                (JStr "127.0.0.1") 9000
                [("default",
                  JObj [("username", JStr "root"); ("password", JStr "calvin");
                        ("token", JStr "cm9vdDpjYWx2aW4=")])] eq_refl)
      as (_ & _ & file & config & hs & a0 & p0 & _ & Hy & _ & _ & H1 & H2
          & H3 & H4).
    cbn in Hy. injection Hy as <-. exists a0, p0. auto.
Defined.

Lemma load_host_lacking (E : Env) (k : string) (d : list (string * json)) :
  lacks_credentials d = true ->
  load_host E k (JObj d)
  = Exits 1 ("Username or password missing for host: " +:+ k).
Proof.
  unfold lacks_credentials, load_host. cbn [py_contains].
  destruct (dict_get "username" d); [|reflexivity].
  destruct (dict_get "password" d); [discriminate|reflexivity].
Qed.

Lemma load_hosts_first_lacking (E : Env) (good : list (string * json)) :
  forall good' k d rest,
    load_hosts E good = Done good' ->
    lacks_credentials d = true ->
    load_hosts E (good ++ (k, JObj d) :: rest)
    = Exits 1 ("Username or password missing for host: " +:+ k).
Proof.
  induction good as [|[k0 v0] good IH]; intros good' k d rest Hg Hd.
  - cbn [app load_hosts]. rewrite (load_host_lacking E k d Hd). reflexivity.
  - cbn [app load_hosts] in *.
    destruct (load_host E k0 v0); try discriminate.
    destruct (load_hosts E good) as [g| |] eqn:Hgood; try discriminate.
    rewrite (IH g k d rest eq_refl Hd). reflexivity.
Qed.

(** X18: when the configuration can be read and, in the order of the
    file, the first host that does not pass is a dict without user name or
    without password, the script exits with code 1 and prints the name of
    that host, whatever the hosts after it are and whether or not the
    server could have started. *)
Theorem host_without_credentials_exits (E : Env) (S : Sys) (file : string)
    (config address : json) (port : Z) (good good' rest : list (string * json))
    (k : string) (d : list (string * json)) :
  open_file S (config_path S) = Some file ->
  yaml_full_load S file = Some config ->
  listen_address config = Ok address ->
  listen_port E config = Ok port ->
  subscript config "hosts" = Ok (JObj (good ++ (k, JObj d) :: rest)) ->
  load_hosts E good = Done good' ->
  lacks_credentials d = true ->
  main E S = Exit 1 ("Username or password missing for host: " +:+ k).
Proof.
  intros Hf Hy Ha Hn Hh Hg Hd. unfold main.
  rewrite Hf, Hy, Ha, Hn, Hh.
  rewrite (load_hosts_first_lacking E good good' k d rest Hg Hd).
  reflexivity.
Qed.

Lemma host_without_credentials_exits_witness :
  main healthy_env broken_sys
  = Exit 1 "Username or password missing for host: idrac7".
Proof.
  refine (host_without_credentials_exits healthy_env broken_sys "hosts: ..."
            broken_config (JStr "0.0.0.0") 9348
            [("default",
              JObj [("username", JStr "root"); ("password", JStr "calvin")])]
            _ [("idrac8", JObj [])] "idrac7" [("username", JStr "root")]
            _ _ _ _ _ _ _); reflexivity.
Defined.

Lemma load_hosts_exits_lacking (E : Env) (hs : list (string * json)) :
  forall code msg,
    load_hosts E hs = Exits code msg ->
    code = 1
    /\ exists k v, In (k, v) hs
                   /\ (py_contains "username" v = Ok false
                       \/ py_contains "password" v = Ok false)
                   /\ msg = "Username or password missing for host: " +:+ k.
Proof.
  induction hs as [|[k v] hs IH]; intros code msg; cbn [load_hosts];
    [discriminate|].
  destruct (load_host E k v) as [v'|c m|e] eqn:Hv; try discriminate.
  - destruct (load_hosts E hs) as [rest|c m|e]; try discriminate.
    intros [= <- <-].
    destruct (IH c m eq_refl) as (-> & k1 & v1 & Hin & Hl & ->).
    split; [reflexivity|]. exists k1, v1.
    split; [right; exact Hin|split; [exact Hl|reflexivity]].
  - intros [= <- <-]. revert Hv. unfold load_host.
    destruct (py_contains "username" v) as [[]|] eqn:Hu; try discriminate.
    + destruct (py_contains "password" v) as [[]|] eqn:Hp; try discriminate.
      * destruct (subscript v "username"); try discriminate.
        destruct (subscript v "password"); try discriminate.
        destruct (encode_token E _ _); try discriminate.
        destruct (set_item v "token" _); discriminate.
      * intros [= <- <-]. split; [reflexivity|]. exists k, v.
        split; [left; reflexivity|split; [right; exact Hp|reflexivity]].
    + intros [= <- <-]. split; [reflexivity|]. exists k, v.
      split; [left; reflexivity|split; [left; exact Hu|reflexivity]].
Qed.

(** X19: once the command line is parsed, the script ends itself only
    with code 1 or 3.  Code 1 comes with one of three messages: the
    configuration file could not be opened (the path is printed); it was
    opened and could not be parsed; or it was parsed and one of its hosts
    has no user name or no password (that host is printed).  Code 3 comes
    only when the configuration was read, its address and port were taken,
    every host of it got its token, and the server could not start on
    that address and port; the text of the exception is printed. *)
Theorem main_exit_codes (E : Env) (S : Sys) (code : Z) (msg : string) :
  main E S = Exit code msg ->
  (code = 1
   /\ ((open_file S (config_path S) = None
        /\ msg = "Unable to open configuration file: " +:+ config_path S)
       \/ (exists file,
             open_file S (config_path S) = Some file
             /\ yaml_full_load S file = None
             /\ msg = "Unable to parse configuration file")
       \/ (exists file config hs k v,
             open_file S (config_path S) = Some file
             /\ yaml_full_load S file = Some config
             /\ subscript config "hosts" = Ok (JObj hs)
             /\ In (k, v) hs
             /\ (py_contains "username" v = Ok false
                 \/ py_contains "password" v = Ok false)
             /\ msg = "Username or password missing for host: " +:+ k)))
  \/ (code = 3
      /\ exists file config address port hs hs' e,
           open_file S (config_path S) = Some file
           /\ yaml_full_load S file = Some config
           /\ listen_address config = Ok address
           /\ listen_port E config = Ok port
           /\ subscript config "hosts" = Ok (JObj hs)
           /\ load_hosts E hs = Done hs'
           /\ Forall (has_token E) hs'
           /\ map fst hs' = map fst hs
           /\ serve_error S address port = Some e
           /\ msg = "Unable to start HTTP server: " +:+ e).
Proof.
  unfold main.
  destruct (open_file S (config_path S)) as [file|] eqn:Hf;
    [|intros [= <- <-]; left; auto].
  destruct (yaml_full_load S file) as [config|] eqn:Hy;
    [|intros [= <- <-]; left; split; [reflexivity|]; right; left;
      exists file; auto].
  destruct (listen_address config) as [a|] eqn:Ha; [|discriminate].
  destruct (listen_port E config) as [n|] eqn:Hn; [|discriminate].
  destruct (subscript config "hosts") as [[| | | | | |hs]|] eqn:Hh;
    try discriminate.
  destruct (load_hosts E hs) as [hs'|c m|e] eqn:Hl; try discriminate.
  - destruct (serve_error S a n) as [e|] eqn:Hs; [|discriminate].
    intros [= <- <-]. right. split; [reflexivity|].
    destruct (load_hosts_done E hs hs' Hl) as [H1 H2].
    exists file, config, a, n, hs, hs', e. repeat split; assumption.
  - intros [= <- <-].
    destruct (load_hosts_exits_lacking E hs c m Hl)
      as (-> & k & v & Hin & Hlack & ->).
    left. split; [reflexivity|]. right. right.
    exists file, config, hs, k, v. repeat split; assumption.
Qed.

Lemma main_exit_codes_witness :
  (exists k v,
     In (k, v) broken_hosts
     /\ (py_contains "username" v = Ok false
         \/ py_contains "password" v = Ok false)
     /\ "Username or password missing for host: idrac7"
        = "Username or password missing for host: " +:+ k)
  /\ (exists hs hs',
        subscript sample_config "hosts" = Ok (JObj hs)
        /\ load_hosts healthy_env hs = Done hs'
        /\ Forall (has_token healthy_env) hs'
        /\ map fst hs' = ["default"; "idrac9"]).
Proof.
  split.
  - destruct (main_exit_codes healthy_env broken_sys 1
                "Username or password missing for host: idrac7" eq_refl)
      as [[_ [[H _]|[(file & _ & H & _)
                    |(file & config & hs & k & v & _ & Hy & Hh & Hin & Hl
                      & Hm)]]]
         |[H _]]; try discriminate H.
    cbn in Hy. injection Hy as <-. cbn in Hh. injection Hh as <-.
    exists k, v. auto.
  - destruct (main_exit_codes healthy_env busy_sys 3
                "Unable to start HTTP server: address in use" eq_refl)
      as [[H _]
         |(_ & file & config & a & n & hs & hs' & e & _ & Hy & _ & _ & Hh
           & Hl & Ht & Hk & _)]; [discriminate H|].
    cbn in Hy. injection Hy as <-. exists hs, hs'.
    split; [exact Hh|]. split; [exact Hl|]. split; [exact Ht|].
    rewrite Hk. cbn in Hh. injection Hh as <-. reflexivity.
Defined.

(** ** More of the handler and of the sink *)

(** X20: the pattern of [do_GET] is matched at the start of the path only:
    a path that goes on after [/metrics] with anything but a lower-case
    letter or the text [?target=] is taken for the metrics path without
    target and answered 400, not 404, and so is [/metrics?target=] with
    nothing after it. *)
Theorem do_GET_metrics_prefix (E : Env) (rest : string) (p : Process) :
  starts_lower rest = false ->
  strip_prefix "?target=" rest = None \/ rest = "?target=" ->
  do_GET E ("/metrics" +:+ rest) p = (Ok (respond 400 EmptyString), p).
Proof.
  intros Hl Hr.
  assert (Hs : span_lower rest = (EmptyString, rest)).
  { destruct rest as [|c r]; [reflexivity|]. apply span_lower_other.
    exact Hl. }
  assert (Hm : re_match ("/metrics" +:+ rest)
               = Some ("metrics",
                       option_map until_newline
                         (strip_prefix "?target=" rest))).
  { rewrite !append_cons, append_empty_l. unfold re_match.
    rewrite !span_lower_letter by reflexivity. rewrite Hs. reflexivity. }
  rewrite (do_GET_matched E _ _ _ p Hm).
  cbn [String.eqb Ascii.eqb Bool.eqb negb].
  destruct Hr as [-> | ->]; reflexivity.
Qed.

Lemma do_GET_metrics_prefix_witness :
  do_GET healthy_env "/metrics/idrac1" startup
  = (Ok (respond 400 EmptyString), startup)
  /\ do_GET healthy_env "/metrics?host=a&target=idrac1" startup
     = (Ok (respond 400 EmptyString), startup)
  /\ do_GET healthy_env "/metrics?target=" startup
     = (Ok (respond 400 EmptyString), startup).
Proof.
  split; [|split].
  - change "/metrics/idrac1" with ("/metrics" +:+ "/idrac1").
    apply do_GET_metrics_prefix; [reflexivity|left; reflexivity].
  - change "/metrics?host=a&target=idrac1"
      with ("/metrics" +:+ "?host=a&target=idrac1").
    apply do_GET_metrics_prefix; [reflexivity|left; reflexivity].
  - change "/metrics?target=" with ("/metrics" +:+ "?target=").
    apply do_GET_metrics_prefix; [reflexivity|right; reflexivity].
Defined.

Lemma split_lines_line (x rest : string) :
  has_newline x = false ->
  split_lines (x +:+ newline +:+ rest) = x :: split_lines rest.
Proof.
  induction x as [|c x IH]; intros H.
  - reflexivity.
  - cbn [has_newline] in H. apply orb_false_elim in H as [Hc Hx].
    rewrite append_cons. cbn [split_lines]. rewrite Hc, (IH Hx). reflexivity.
Qed.

Lemma split_lines_unlines (l : list string) :
  forallb (fun r => negb (has_newline r)) l = true ->
  split_lines (unlines l) = l.
Proof.
  induction l as [|x l IH]; intros H; [reflexivity|].
  cbn [forallb] in H. apply andb_prop in H as [Hx Hl].
  cbn [unlines]. rewrite split_lines_line, IH; auto.
  destruct (has_newline x); [discriminate|reflexivity].
Qed.

(** X21: the text of a sink that holds records, none of them with a line
    feed inside, has exactly one line for each record, in the order in
    which the records were added: cutting the text at its line feeds
    gives the records back. *)
Theorem rendered_lines_are_records (st : St) :
  metrics (self st) <> [] ->
  forallb (fun r => negb (has_newline r)) (metrics (self st)) = true ->
  fst (metrics_get st) = Ok (rendered st)
  /\ split_lines (rendered st) = metrics (self st).
Proof.
  intros Hne Hnl. split; [reflexivity|]. unfold rendered.
  destruct (metrics (self st)) as [|x l] eqn:Hm; [contradiction|].
  rewrite join_newline_unlines. apply split_lines_unlines. exact Hnl.
Qed.

Lemma rendered_lines_are_records_witness :
  split_lines (rendered (snd (RedfishAPI_collect_metrics healthy_env sample_st)))
  = metrics (self (snd (RedfishAPI_collect_metrics healthy_env sample_st))).
Proof.
  apply (proj2 (rendered_lines_are_records
                  (snd (RedfishAPI_collect_metrics healthy_env sample_st))
                  ltac:(discriminate) eq_refl)).
Defined.

(** ** One probe for the life of the process *)

Lemma same_fields_requests (a b : RedfishAPI) :
  same_fields a b -> pass_requests b = pass_requests a.
Proof.
  intros (_ & Hb & Hc & Ht). unfold pass_requests, get_request. cbn [map].
  rewrite Hb, Hc, Ht. reflexivity.
Qed.

Lemma same_fields_trans (a b c : RedfishAPI) :
  same_fields a b -> same_fields b c -> same_fields a c.
Proof.
  intros (H1 & H2 & H3 & H4) (K1 & K2 & K3 & K4). repeat split; congruence.
Qed.

Lemma on_object_other {A} (r r0 : nat) (m : M St A) (p : Process) :
  r <> r0 -> heap (snd (on_object r m p)) !! r0 = heap p !! r0.
Proof.
  intros Hne. unfold on_object. destruct (heap p !! r); [|reflexivity].
  destruct (m _). cbn. apply list_lookup_insert_ne. exact Hne.
Qed.

Lemma on_object_pass_fields (E : Env) (r r0 : nat) (p : Process)
    (obj0 : RedfishAPI) :
  heap p !! r0 = Some obj0 ->
  exists obj1,
    heap (snd (on_object r (RedfishAPI_collect_metrics E) p)) !! r0 = Some obj1
    /\ same_fields obj0 obj1.
Proof.
  intros H0. destruct (decide (r = r0)) as [->|Hne].
  - rewrite (on_object_run r0 _ p obj0 H0). cbn [snd heap].
    eexists. split.
    + apply list_lookup_insert_eq. eapply lookup_lt_Some. exact H0.
    + destruct (pass_requests_sent E {| self := obj0; world := outside p |})
        as (n & _ & _ & _ & Hs). exact Hs.
  - exists obj0. rewrite on_object_other by exact Hne.
    split; [exact H0|repeat split].
Qed.

Lemma collect_metrics_keeps_fields (E : Env) (t' : string) (p : Process)
    (r0 : nat) (obj0 : RedfishAPI) :
  heap p !! r0 = Some obj0 ->
  exists obj1, heap (snd (collect_metrics E t' p)) !! r0 = Some obj1
               /\ same_fields obj0 obj1.
Proof.
  intros H0.
  assert (Hrun : forall i q, heap q !! r0 = Some obj0 ->
            exists obj1, heap (snd (run_session E i q)) !! r0 = Some obj1
                         /\ same_fields obj0 obj1).
  { intros i q Hq. unfold run_session.
    destruct (valid i) as [[]|]; try (exists obj0; split; [exact Hq|repeat split]).
    destruct (host i) as [r|]; [|exists obj0; split; [exact Hq|repeat split]].
    apply on_object_pass_fields. exact Hq. }
  assert (Hopen : forall i q, heap q !! r0 = Some obj0 ->
            heap (snd (open_session E t' i q)) !! r0 = Some obj0).
  { intros i q Hq. unfold open_session. destruct (host i); [exact Hq|].
    run_m. unfold alloc.
    assert (Hlt : (r0 < length (heap q))%nat) by (eapply lookup_lt_Some; eauto).
    pose proof (on_object_other (length (heap q)) r0
                  (authenticate E (info_token i))
                  {| hosts := hosts q; heap := heap q ++ [RedfishAPI_init t'];
                     outside := outside q |} ltac:(lia)) as Hoo.
    cbn [heap] in Hoo. rewrite lookup_app_l in Hoo by exact Hlt.
    destruct (on_object _ _ _) as [[ok|e] q']; cbn [snd] in *;
      cbn [set_entry heap]; congruence. }
  assert (Hseed : heap (snd (seed_entry t' p)) !! r0 = Some obj0).
  { unfold seed_entry. run_m. destruct (hosts p !! t'); [exact H0|].
    destruct (hosts p !! "default"); exact H0. }
  unfold collect_metrics. run_m.
  destruct (seed_entry t' p) as [[[]|e] p1]; cbn [snd] in Hseed;
    [|exists obj0; split; [exact Hseed|repeat split]].
  destruct (hosts p1 !! t') as [i|];
    [|exists obj0; split; [exact Hseed|repeat split]].
  specialize (Hopen i p1 Hseed).
  destruct (open_session E t' i p1) as [[[]|e] p2]; cbn [snd] in Hopen;
    [|exists obj0; split; [exact Hopen|repeat split]].
  destruct (hosts p2 !! t') as [j|];
    [|exists obj0; split; [exact Hopen|repeat split]].
  apply Hrun. exact Hopen.
Qed.

Lemma serve_without_probe (E : Env) (t : string) (i : info) (r : nat)
    (obj : RedfishAPI) (targets : list string) :
  host i = Some r -> valid i = Some true ->
  forall p obj0,
    hosts p !! t = Some i -> heap p !! r = Some obj0 -> same_fields obj obj0 ->
    Forall (served_without_probe t obj) (fst (serve E targets p)).
Proof.
  intros Hh Hv. induction targets as [|t' rest IH]; intros p obj0 Hi H0 Hf;
    [constructor|].
  cbn [serve].
  pose proof (collect_metrics_keeps_session E t t' p i r Hi Hh) as Hi1.
  destruct (collect_metrics_keeps_fields E t' p r obj0 H0)
    as (obj1 & H1 & Hf1).
  assert (Hev : t' = t ->
            exists n, (1 <= n <= 3)%nat
                      /\ net_log (outside (snd (collect_metrics E t' p)))
                         = net_log (outside p) ++ take n (pass_requests obj)).
  { intros ->.
    destruct (cached_request E t p i r obj0 Hi Hh Hv H0) as (_ & n & Hn & Hl).
    exists n. rewrite <- (same_fields_requests obj obj0 Hf).
    split; [exact Hn|exact Hl]. }
  destruct (collect_metrics E t' p) as [res p1]. cbn [snd] in *.
  specialize (IH p1 obj1 Hi1 H1 (same_fields_trans _ _ _ Hf Hf1)).
  destruct (serve E rest p1) as [evs p2]. cbn [fst] in *.
  constructor; [|exact IH].
  intros Heq. cbn in Heq. destruct (Hev Heq) as (n & Hn & Hl).
  exists n. split; [exact Hn|]. cbn [ev_requests]. rewrite Hl.
  apply drop_app_length.
Qed.

(** X22: a target whose session is valid is never probed again: in every
    run of further requests, for any targets, each request for it is
    served by one pass of that same session, with one to three requests
    and none for [Chassis]. *)
Theorem valid_session_never_probed_again (E : Env) (t : string) (i : info)
    (r : nat) (obj : RedfishAPI) (targets : list string) (p : Process) :
  hosts p !! t = Some i -> host i = Some r -> valid i = Some true ->
  heap p !! r = Some obj ->
  Forall (served_without_probe t obj) (fst (serve E targets p))
  /\ Forall (fun q => req_url q <> baseurl obj +:+ "/Chassis")
       (pass_requests obj).
Proof.
  intros Hi Hh Hv H0. split.
  - apply (serve_without_probe E t i r obj targets Hh Hv p obj Hi H0).
    repeat split.
  - unfold pass_requests, get_request. cbn [map resource req_url].
    repeat constructor; intros H; apply String.app_inj in H; discriminate H.
Qed.

Lemma valid_session_never_probed_again_witness :
  Forall (served_without_probe "idrac1" first_session)
    (fst (serve healthy_env ["idrac1"; "default"; "idrac1"] served_once)).
Proof.
  refine (proj1 (valid_session_never_probed_again healthy_env "idrac1"
                   (with_session sample_credentials 0 true) 0 first_session
                   ["idrac1"; "default"; "idrac1"] served_once _ _ _ _)).
  - vm_compute. reflexivity.
  - reflexivity.
  - reflexivity.
  - vm_compute. reflexivity.
Defined.

(** ** One bad entry *)

Lemma for_each_stops {A} (body : A -> M St unit) (good : list A) (bad : A)
    (rest : list A) (e : exn) :
  forall s1 s2 s3,
    for_each good body s1 = (Ok tt, s2) ->
    body bad s2 = (Raise e, s3) ->
    for_each (good ++ bad :: rest) body s1 = (Raise e, s3).
Proof.
  induction good as [|x good IH]; intros s1 s2 s3; cbn [for_each app].
  - intros [= <-] Hb. unfold bind. rewrite Hb. reflexivity.
  - unfold bind. destruct (body x s1) as [[[]|e0] s]; [|discriminate].
    intros Hg Hb. exact (IH s s2 s3 Hg Hb).
Qed.

(** X23: the loops of the sensors and of the event log collector stop at
    the first entry whose body raises: the collector raises that
    exception in the state the entry left, with the records of the
    entries before it in the sink, and the entries after it are not
    looked at. *)
Theorem bad_entry_fails_collector (E : Env) (c : collector) (st s2 s3 : St)
    (doc members bad : json) (good rest : list json) (e : exn) :
  c <> Basics ->
  answer E (resource c) st = Response 200 (Some doc) ->
  method_get doc "Members" = Ok members ->
  py_iter members = Ok (good ++ bad :: rest) ->
  for_each good (entry_body E c) (requested (resource c) st) = (Ok tt, s2) ->
  entry_body E c bad s2 = (Raise e, s3) ->
  run_collector E c st = (Raise e, s3).
Proof.
  intros Hc Ha Hm Hi Hg Hb.
  destruct c; [contradiction| |]; cbn [run_collector resource entry_body] in *;
    unfold collect_sensors, collect_sel, bind;
    rewrite get_unfold, Ha;
    cbn [rv_error rv_json Z.eqb Pos.eqb truthy_code];
    unfold lift; rewrite Hm, Hi;
    exact (for_each_stops _ good bad rest e _ s2 s3 Hg Hb).
Qed.

Lemma bad_entry_fails_collector_witness :
  fst (run_collector nameless_env Sensors sample_st)
  = Raise (KeyError "ElementName")
  /\ length (metrics (self (snd (run_collector nameless_env Sensors
                                   sample_st)))) = 1%nat.
Proof.
  rewrite (bad_entry_fails_collector nameless_env Sensors sample_st
             (snd (collect_sensors_entry nameless_env sample_temperature
                     (requested (resource Sensors) sample_st)))
             (snd (collect_sensors_entry nameless_env sample_temperature
                     (requested (resource Sensors) sample_st)))
             (JObj [("Members",
                     JArr [sample_temperature; nameless_sensor; sample_fan])])
             (JArr [sample_temperature; nameless_sensor; sample_fan])
             nameless_sensor [sample_temperature] [sample_fan]
             (KeyError "ElementName")
             ltac:(discriminate) eq_refl eq_refl eq_refl eq_refl eq_refl).
  split; reflexivity.
Defined.
